(** * processEntries: a shallow embedding of [src/lib/sampleFunction.ts]

    The classifier takes an array of voice entries and returns the tag
    frequencies, the detected ideas and a summary line.  The embedding
    follows the TypeScript text statement by statement:

    - strings are sequences of UTF-16 code units; the model covers the
      strings whose code units are all below 256, one [ascii] per code
      unit, where [toLowerCase] and the canonicalisation of [/i] are
      given exactly;
    - a regular expression of the source is always an alternation of
      literal words under the [i] flag and without the [g] flag, so that
      [test] is a stateless search;
    - the emotion score is an IEEE 754 binary64 number, [null], or absent;
    - [tagFrequencies] is an ordinary object literal: own properties are a
      [gmap], reads that miss fall through to [Object.prototype].

    The fixture loader [parseCSV] of [src/lib/mockData.ts], which feeds
    the classifier in the tests, is embedded after it, with the number
    parser, the JSON parser and the random id as parameters. *)

From Stdlib Require Import Ascii String NArith Floats DecimalNat DecimalString.
From stdpp Require Import base list strings gmap.

Set Warnings "-inexact-float".

Local Open Scope string_scope.
Local Open Scope list_scope.

(** ** Strings *)

Module JsString.

(** Code unit of a character. *)
Definition code (c : ascii) : N := N_of_ascii c.

(** [String.prototype.toLowerCase] on one code unit below 256: the
    letters A-Z and the Latin-1 capitals U+00C0-U+00DE, the
    multiplication sign U+00D7 excepted, move up by 32. *)
Definition lower_char (c : ascii) : ascii :=
  let n := code c in
  if ((65 <=? n) && (n <=? 90))%N then ascii_of_N (n + 32)
  else if ((192 <=? n) && (n <=? 222) && negb (n =? 215))%N
       then ascii_of_N (n + 32)
  else c.

Fixpoint toLowerCase (s : string) : string :=
  match s with
  | EmptyString => EmptyString
  | String c s' => String (lower_char c) (toLowerCase s')
  end.

(** [Canonicalize] of a regular expression with the [i] flag and no
    [u] flag: the upper-case form of the code unit, kept only when it
    is a single code unit and does not map a non-ASCII unit into ASCII.
    U+00B5 goes to U+039C and U+00FF to U+0178, whence the result in
    [N]; U+00DF upper-cases to two units and stays. *)
Definition canonicalize (c : ascii) : N :=
  let n := code c in
  if ((97 <=? n) && (n <=? 122))%N then (n - 32)%N
  else if ((224 <=? n) && (n <=? 254) && negb (n =? 247))%N then (n - 32)%N
  else if (n =? 181)%N then 924%N
  else if (n =? 255)%N then 376%N
  else n.

(** Two characters match under [/i]. *)
Definition char_eq_i (a b : ascii) : bool :=
  (canonicalize a =? canonicalize b)%N.

(** The literal [p] matches at the start of [s], under [/i]. *)
Fixpoint matches_at_i (p s : string) : bool :=
  match p, s with
  | EmptyString, _ => true
  | String _ _, EmptyString => false
  | String a p', String b s' => char_eq_i a b && matches_at_i p' s'
  end.

(** The literal [p] matches somewhere in [s], under [/i]. *)
Fixpoint search_i (p s : string) : bool :=
  matches_at_i p s ||
  match s with
  | EmptyString => false
  | String _ s' => search_i p s'
  end.

(** [/(w1|w2|...)/i.test(text)]. *)
Definition test_i (alternatives : list string) (text : string) : bool :=
  existsb (fun p => search_i p text) alternatives.

(** Plain, case-sensitive containment: [text.includes(p)]. *)
Fixpoint starts_with (p s : string) : bool :=
  match p, s with
  | EmptyString, _ => true
  | String _ _, EmptyString => false
  | String a p', String b s' => Ascii.eqb a b && starts_with p' s'
  end.

Fixpoint includes (p s : string) : bool :=
  starts_with p s ||
  match s with
  | EmptyString => false
  | String _ s' => includes p s'
  end.

Definition includes_any (ps : list string) (s : string) : bool :=
  existsb (fun p => includes p s) ps.

(** Case-insensitive containment of an ASCII word: some substring of
    [s] lower-cases to the lower-cased word. *)
Definition includes_nocase (p s : string) : bool :=
  includes (toLowerCase p) (toLowerCase s).

(** Decimal rendering of an array length in a template literal. *)
Definition of_length (n : nat) : string :=
  NilZero.string_of_uint (Nat.to_uint n).

End JsString.

(** ** The emotion score *)

Inductive score : Type :=
| ScoreAbsent              (* the property is missing: [undefined] *)
| ScoreNull                (* [null] *)
| ScoreNumber (x : float). (* a number *)

(** [ToNumber] of the score in a relational comparison. *)
Definition score_to_number (s : score) : float :=
  match s with
  | ScoreNumber x => x
  | ScoreNull => 0%float
  | ScoreAbsent => nan
  end.

Definition tone_of (s : score) : string :=
  match s with
  | ScoreNull => "neutral"
  | _ =>
      if PrimFloat.ltb 0.3%float (score_to_number s) then "positive"
      else if PrimFloat.ltb (score_to_number s) (-0.1)%float then "negative"
      else "neutral"
  end.

(** ** The object literal [tagFrequencies]

    [const tagFrequencies: Record<string, number> = {}] is an ordinary
    object: its prototype is [Object.prototype], and a read of a property
    it does not own is answered by the prototype. *)

Module JsObject.

Inductive primitive : Type :=
| Undefined
| Number (n : nat)
| NotANumber
| Str (s : string).

Inductive value : Type :=
| Prim (p : primitive)
| NativeFunction (name : string)
| ObjectPrototype.

(** The methods [Object.prototype] carries under their own name. *)
Definition prototype_methods : list string :=
  [ "hasOwnProperty"; "isPrototypeOf"; "propertyIsEnumerable";
    "toLocaleString"; "toString"; "valueOf";
    "__defineGetter__"; "__defineSetter__";
    "__lookupGetter__"; "__lookupSetter__" ].

(** [Object.prototype[k]]. *)
Definition prototype_get (k : string) : value :=
  if decide (k = "__proto__") then ObjectPrototype
  else if decide (k = "constructor") then NativeFunction "Object"
  else if bool_decide (k ∈ prototype_methods) then NativeFunction k
  else Prim Undefined.

(** [o[k]]: the own property, else the inherited one. *)
Definition get (o : gmap string primitive) (k : string) : value :=
  match o !! k with
  | Some p => Prim p
  | None => prototype_get k
  end.

(** [ToBoolean]. *)
Definition truthy (v : value) : bool :=
  match v with
  | Prim Undefined => false
  | Prim (Number n) => negb (Nat.eqb n 0)
  | Prim NotANumber => false
  | Prim (Str s) => negb (String.eqb s "")
  | NativeFunction _ => true
  | ObjectPrototype => true
  end.

(** [v || 0]. *)
Definition or_zero (v : value) : value :=
  if truthy v then v else Prim (Number 0).

(** [Function.prototype.toString] of a built-in function, as Node
    prints it. *)
Definition native_source (name : string) : string :=
  "function " +:+ name +:+ "() { [native code] }".

(** [v + 1]: numeric addition on numbers, concatenation once the left
    operand's primitive is a string. *)
Definition plus_one (v : value) : primitive :=
  match v with
  | Prim (Number n) => Number (n + 1)
  | Prim Undefined => NotANumber
  | Prim NotANumber => NotANumber
  | Prim (Str s) => Str (s +:+ "1")
  | NativeFunction name => Str (native_source name +:+ "1")
  | ObjectPrototype => Str "[object Object]1"
  end.

(** [o[k] = p] for a primitive [p]: an own property is written, except
    under the key ["__proto__"], whose inherited setter ignores every
    value that is neither an object nor [null]. *)
Definition set (o : gmap string primitive) (k : string) (p : primitive)
  : gmap string primitive :=
  if decide (k = "__proto__") then o else <[k := p]> o.

End JsObject.

Import JsString JsObject.

(** ** Records *)

Record Idea : Type := {
  task_text : string;
  status : string;
  category : string;
  due_date : option string;
  origin_type : string;
  tone : string;
  refinement_level : string;
  belief_level : string
}.

Record ProcessedResult : Type := {
  summary : string;
  tagFrequencies : gmap string primitive;
  ideas : list Idea
}.

(** [types.ts] is not among the sources.  The classifier reads three
    fields of a [VoiceEntry]; whatever else the type carries is kept in
    [other_fields]. *)
Record VoiceEntry {Extra : Type} : Type := {
  transcript_user : string;
  tags_user : list string;
  emotion_score_score : score;
  other_fields : Extra
}.
Arguments VoiceEntry : clear implicits.

(** ** processEntries *)

(** [tagFrequencies[tag] = (tagFrequencies[tag] || 0) + 1] *)
Definition count_tag (tf : gmap string primitive) (tag : string)
  : gmap string primitive :=
  set tf tag (plus_one (or_zero (get tf tag))).

Definition hasIdeaVerbs (text : string) : bool :=
  test_i ["build"; "create"; "start"; "try"; "make"; "develop"; "design";
          "launch"] text.

Definition hasIdeaPhrases (text : string) : bool :=
  test_i ["just thought of"; "what if"; "idea for"; "thinking about";
          "occurred to me"; "imagine if"; "how about"] text.

Definition hasFutureIntent (text : string) : bool :=
  test_i ["going to"; "plan to"; "want to"; "would like to"; "intend to"]
         text.

Definition status_of (text : string) : string :=
  if test_i ["already started"; "in progress"; "working on"] text
  then "in progress"
  else if test_i ["finished"; "completed"; "done"] text then "completed"
  else "new".

Definition category_of (text : string) : string :=
  if test_i ["health"; "exercise"; "workout"; "diet"] text then "health"
  else if test_i ["learn"; "study"; "course"; "read"] text then "learning"
  else if test_i ["work"; "job"; "career"; "business"] text then "work"
  else if test_i ["personal"; "life"; "relationship"] text then "personal"
  else "general".

Definition due_date_of (text : string) : option string :=
  if test_i ["tomorrow"] text then Some "tomorrow"
  else if test_i ["next week"] text then Some "next week"
  else if test_i ["this weekend"] text then Some "this weekend"
  else None.

Definition origin_type_of (text : string) : string :=
  if hasIdeaPhrases text then "spontaneous" else "planned".

Definition refinement_level_of (text : string) : string :=
  if test_i ["detailed plan"; "steps to"; "process for"] text then "detailed"
  else if test_i ["thinking about"; "considering"] text then "conceptual"
  else "initial".

Definition belief_level_of (text : string) : string :=
  if test_i ["definitely"; "absolutely"; "must"; "will"] text then "high"
  else if test_i ["maybe"; "perhaps"; "might"; "could"] text then "low"
  else "medium".

(** The condition of line 38, on the lower-cased transcript. *)
Definition detects (text : string) : bool :=
  hasIdeaVerbs text || hasIdeaPhrases text || hasFutureIntent text.

(** The record pushed at lines 102-111, from the transcript, its
    lower-cased form and the score. *)
Definition build_idea (transcript text : string) (s : score) : Idea :=
  {| task_text := transcript;
     status := status_of text;
     category := category_of text;
     due_date := due_date_of text;
     origin_type := origin_type_of text;
     tone := tone_of s;
     refinement_level := refinement_level_of text;
     belief_level := belief_level_of text |}.

Section Classifier.

Context {Extra : Type}.
#[local] Abbreviation Entry := (VoiceEntry Extra).

Definition is_idea (e : Entry) : bool :=
  detects (toLowerCase (transcript_user e)).

Definition idea_of (e : Entry) : Idea :=
  build_idea (transcript_user e) (toLowerCase (transcript_user e))
             (emotion_score_score e).

(** One turn of [for (const e of entries)], on the two locals the loop
    updates. *)
Definition loop_body (st : gmap string primitive * list Idea) (e : Entry)
  : gmap string primitive * list Idea :=
  let tf := fold_left count_tag (tags_user e) st.1 in
  if is_idea e then (tf, st.2 ++ [idea_of e]) else (tf, st.2).

Definition processEntries (entries : list Entry) : ProcessedResult :=
  let st := fold_left loop_body entries (∅, []) in
  {| summary :=
       "Analysis of " +:+ of_length (length entries) +:+
       " entries found " +:+ of_length (length st.2) +:+
       " potential ideas";
     tagFrequencies := st.1;
     ideas := st.2 |}.

End Classifier.

(** An entry with nothing in its other fields, for the examples. *)
Definition entry (t : string) (tags : list string) (s : score)
  : VoiceEntry unit :=
  {| transcript_user := t; tags_user := tags; emotion_score_score := s;
     other_fields := tt |}.

(** ** The rule tables, as the specification words them

    Each is a plain containment test on the lower-cased transcript. *)

Module Spec.

Definition verb_set : list string :=
  ["build"; "create"; "start"; "try"; "make"; "develop"; "design"; "launch"].

Definition phrase_set : list string :=
  ["just thought of"; "what if"; "idea for"; "thinking about";
   "occurred to me"; "imagine if"; "how about"].

Definition future_intent_set : list string :=
  ["going to"; "plan to"; "want to"; "would like to"; "intend to"].

Definition verb_trigger (lowered : string) : bool :=
  includes_any verb_set lowered.

Definition phrase_trigger (lowered : string) : bool :=
  includes_any phrase_set lowered.

Definition future_intent_trigger (lowered : string) : bool :=
  includes_any future_intent_set lowered.

(** At least one of the three triggers fires on the lower-cased
    transcript. *)
Definition trigger_fires {Extra} (e : VoiceEntry Extra) : bool :=
  let lowered := toLowerCase (transcript_user e) in
  verb_trigger lowered || phrase_trigger lowered
  || future_intent_trigger lowered.

(** An ordered rule table: the first row with a keyword in the text
    gives the label, else the default. *)
Fixpoint first_match (table : list (string * list string))
    (default : string) (lowered : string) : string :=
  match table with
  | [] => default
  | (label, keywords) :: rest =>
      if includes_any keywords lowered then label
      else first_match rest default lowered
  end.

Definition category_table : list (string * list string) :=
  [ ("health", ["health"; "exercise"; "workout"; "diet"]);
    ("learning", ["learn"; "study"; "course"; "read"]);
    ("work", ["work"; "job"; "career"; "business"]);
    ("personal", ["personal"; "life"; "relationship"]) ].

Definition category_by_order (lowered : string) : string :=
  first_match category_table "general" lowered.

Definition refinement_table : list (string * list string) :=
  [ ("detailed", ["detailed plan"; "steps to"; "process for"]);
    ("conceptual", ["thinking about"; "considering"]) ].

(** Tone from the score: present and above 0.3, present and below
    -0.1, anything else. *)
Definition tone_by_score (s : score) : string :=
  match s with
  | ScoreNumber x =>
      if PrimFloat.ltb 0.3%float x then "positive"
      else if PrimFloat.ltb x (-0.1)%float then "negative"
      else "neutral"
  | ScoreNull | ScoreAbsent => "neutral"
  end.

End Spec.

(** ** The classifier on untyped values

    What the same text does when the TypeScript types do not hold: the
    two places where it can throw are the [for ... of] over
    [e.tags_user], which needs an iterable, and the call of
    [e.transcript_user.toLowerCase()], which needs a string.  The values
    covered are [undefined], [null], numbers, strings and arrays of
    strings; objects with methods of their own, other iterables and
    symbols are outside the model. *)

Module Dynamic.

Inductive jsvalue : Type :=
| JUndefined
| JNull
| JNumber (x : float)
| JString (s : string)
| JArray (items : list string).

Inductive completion (A : Type) : Type :=
| Normal (a : A)
| ThrowTypeError.
Arguments Normal {A} a.
Arguments ThrowTypeError {A}.

#[global] Instance completion_bind : MBind completion :=
  λ A B (k : A → completion B) (c : completion A),
    match c with
    | Normal a => k a
    | ThrowTypeError => ThrowTypeError
    end.

Record RawEntry : Type := {
  raw_transcript_user : jsvalue;
  raw_tags_user : jsvalue;
  raw_emotion_score_score : score
}.

(** [for (const tag of v)]: an array gives its items, a string its
    characters; nothing else is iterable. *)
Definition iterate (v : jsvalue) : completion (list string) :=
  match v with
  | JArray items => Normal items
  | JString s => Normal (map (λ c, String c EmptyString) (list_ascii_of_string s))
  | JUndefined | JNull | JNumber _ => ThrowTypeError
  end.

(** The receiver of [v.toLowerCase()]: [undefined] and [null] have no
    properties, numbers and arrays have no such method. *)
Definition string_receiver (v : jsvalue) : completion string :=
  match v with
  | JString s => Normal s
  | JUndefined | JNull | JNumber _ | JArray _ => ThrowTypeError
  end.

Definition loop_body (st : gmap string primitive * list Idea) (e : RawEntry)
  : completion (gmap string primitive * list Idea) :=
  tags ← iterate (raw_tags_user e);
  let tf := fold_left count_tag tags st.1 in
  transcript ← string_receiver (raw_transcript_user e);
  let text := toLowerCase transcript in
  if detects text
  then Normal (tf, st.2 ++ [build_idea transcript text
                                       (raw_emotion_score_score e)])
  else Normal (tf, st.2).

Fixpoint loop (entries : list RawEntry)
    (st : gmap string primitive * list Idea)
  : completion (gmap string primitive * list Idea) :=
  match entries with
  | [] => Normal st
  | e :: rest => st' ← loop_body st e; loop rest st'
  end.

Definition processEntries (entries : list RawEntry)
  : completion ProcessedResult :=
  st ← loop entries (∅, []);
  Normal
    {| summary :=
         "Analysis of " +:+ of_length (length entries) +:+
         " entries found " +:+ of_length (length st.2) +:+
         " potential ideas";
       tagFrequencies := st.1;
       ideas := st.2 |}.

(** A typed entry, seen as the values it is made of. *)
Definition of_typed {Extra} (e : VoiceEntry Extra) : RawEntry :=
  {| raw_transcript_user := JString (transcript_user e);
     raw_tags_user := JArray (tags_user e);
     raw_emotion_score_score := emotion_score_score e |}.

End Dynamic.

(** ** Auxiliary definitions for the proofs *)

(** All the tags of the input, in the order the loop meets them. *)
Definition all_tags {Extra} (entries : list (VoiceEntry Extra)) : list string :=
  concat (map tags_user entries).

(** [n] times the character 1. *)
Fixpoint ones (n : nat) : string :=
  match n with
  | O => EmptyString
  | S n' => ones n' +:+ "1"
  end.

(** What the frequency object holds under [k] once [k] has been counted
    [n] times. *)
Definition held_after (k : string) (n : nat) : option primitive :=
  match n with
  | O => None
  | S _ =>
      if decide (k = "__proto__") then None
      else match prototype_get k with
           | NativeFunction name => Some (Str (native_source name +:+ ones n))
           | ObjectPrototype | Prim _ => Some (Number n)
           end
  end.

(** A tag that names no property of [Object.prototype]. *)
Definition plain_tag (k : string) : Prop := prototype_get k = Prim Undefined.

(** Every attribute of an idea record is one of its listed values. *)
Definition well_formed_idea (i : Idea) : Prop :=
  status i ∈ ["new"; "in progress"; "completed"]
  ∧ category i ∈ ["general"; "health"; "learning"; "work"; "personal"]
  ∧ due_date i ∈ [None; Some "tomorrow"; Some "next week"; Some "this weekend"]
  ∧ origin_type i ∈ ["spontaneous"; "planned"]
  ∧ tone i ∈ ["positive"; "neutral"; "negative"]
  ∧ refinement_level i ∈ ["initial"; "detailed"; "conceptual"]
  ∧ belief_level i ∈ ["medium"; "high"; "low"].

(** The shape of an aggregate result for [n] entries with the tags
    [tags]: a summary line with both counts, idea records with listed
    attribute values, and a frequency object keyed by tags of the input. *)
Definition well_formed (n : nat) (tags : list string) (r : ProcessedResult)
  : Prop :=
  summary r
  = "Analysis of " +:+ of_length n +:+ " entries found "
    +:+ of_length (length (ideas r)) +:+ " potential ideas"
  ∧ Forall well_formed_idea (ideas r)
  ∧ ∀ k, is_Some (tagFrequencies r !! k) → k ∈ tags.

(** Every code unit below 256. *)
Definition all_chars : list ascii := map ascii_of_nat (seq 0 256).

(** A word is in lower case when [toLowerCase] leaves it alone. *)
Definition is_lowered (s : string) : bool := String.eqb (toLowerCase s) s.

(** For [a] in lower case, [a] matches the lower-cased [c] under [/i]
    exactly when they are equal. *)
Definition char_agreement (a c : ascii) : bool :=
  implb (Ascii.eqb (lower_char a) a)
        (Bool.eqb (char_eq_i a (lower_char c)) (Ascii.eqb a (lower_char c))).

(** ** The fixture loader [parseCSV] of [src/lib/mockData.ts]

    The loader splits the file into lines, takes the first non-blank line
    as the header and turns each of the next twenty non-blank lines into
    an object keyed by the header names.  Three things it calls are not
    part of the sources and are parameters here: [String(parseFloat(v))],
    [JSON.parse] (a value, or the message of the [SyntaxError] it
    throws) with the truth value of what it returns, and the text
    [Math.random().toString(36).substring(2)] drawn while a row is
    mapped. *)

Module Csv.

(** The code units below 256 that [trim] removes: TAB, LF, VT, FF, CR,
    the space and the no-break space. *)
Definition is_space (c : ascii) : bool :=
  let n := code c in
  ((9 <=? n) && (n <=? 13) || (n =? 32) || (n =? 160))%N.

Fixpoint trimStart (s : string) : string :=
  match s with
  | EmptyString => EmptyString
  | String c s' => if is_space c then trimStart s' else s
  end.

Fixpoint trimEnd (s : string) : string :=
  match s with
  | EmptyString => EmptyString
  | String c s' =>
      match trimEnd s' with
      | EmptyString => if is_space c then EmptyString else String c EmptyString
      | t => String c t
      end
  end.

(** [String.prototype.trim] *)
Definition trim (s : string) : string := trimEnd (trimStart s).

(** [s.split(sep)] for a separator of one character: the pieces between
    the separators, one piece for a string without any, the empty string
    included. *)
Fixpoint split (sep : ascii) (s : string) : list string :=
  match s with
  | EmptyString => [EmptyString]
  | String c s' =>
      if Ascii.eqb c sep then EmptyString :: split sep s'
      else match split sep s' with
           | piece :: pieces => String c piece :: pieces
           | [] => [String c EmptyString]
           end
  end.

(** [items.join(sep)], the inverse the properties below are stated with. *)
Fixpoint join (sep : ascii) (items : list string) : string :=
  match items with
  | [] => EmptyString
  | [item] => item
  | item :: rest => item +:+ String sep (join sep rest)
  end.

(** The character occurs in the string. *)
Fixpoint has_char (c : ascii) (s : string) : bool :=
  match s with
  | EmptyString => false
  | String c' s' => Ascii.eqb c' c || has_char c s'
  end.

(** What a property of a loaded entry holds. *)
Inductive cell {Json : Type} : Type :=
| CNull
| CText (s : string)
| CList (items : list string)
| CJson (j : Json).
Arguments cell : clear implicits.

(** The entry under construction: its own properties, and whether its
    prototype is still [Object.prototype]. *)
Record object {Json : Type} : Type := {
  own : gmap string (cell Json);
  has_prototype : bool
}.
Arguments object : clear implicits.

(** [{}] *)
Definition empty_object {Json} : object Json :=
  {| own := ∅; has_prototype := true |}.

(** [o[k] = c] under a key other than ["__proto__"]: an own property. *)
Definition define {Json} (o : object Json) (k : string) (c : cell Json)
  : object Json :=
  {| own := <[k := c]> (own o); has_prototype := has_prototype o |}.

(** [o[k] = value] for a text or [null].  Under ["__proto__"] the
    inherited setter answers: [null] removes the prototype and a text is
    ignored; once the prototype is gone the key is an own property like
    any other. *)
Definition assign {Json} (o : object Json) (k : string)
    (value : option string) : object Json :=
  let c := match value with Some v => CText v | None => CNull end in
  if decide (k = "__proto__") then
    if has_prototype o then
      match value with
      | None => {| own := own o; has_prototype := false |}
      | Some _ => o
      end
    else define o k c
  else define o k c.

(** [values[index]?.trim() || null] *)
Definition cell_text (values : list string) (index : nat) : option string :=
  match values !! index with
  | Some v => if String.eqb (trim v) "" then None else Some (trim v)
  | None => None
  end.

(** The line of [console.warn]. *)
Definition warning (message : string) : string :=
  "Failed to parse embedding JSON for entry. Using null instead. Error: "
  +:+ message.

(** The filter of line 7 keeps the lines whose [trim] is not empty. *)
Definition nonblank (line : string) : bool :=
  negb (String.eqb (trim line) "").

(** The lines the loader works on. *)
Definition lines_of (content : string) : list string :=
  List.filter nonblank (split "010" content).

Section Loader.

Context {Json : Type}.
Variable parse_float_text : string → string.
Variable json_parse : string → Json + string.
Variable json_truthy : Json → bool.
Variable random_id : nat → string.

(** [ToBoolean] of a property value. *)
Definition cell_truthy (c : cell Json) : bool :=
  match c with
  | CNull => false
  | CText s => negb (String.eqb s "")
  | CList _ => true
  | CJson j => json_truthy j
  end.

(** [!o.id], [!o.user_id]: [Object.prototype] has no property of either
    name, so that only an own property can make them truthy. *)
Definition lacks (o : object Json) (k : string) : bool :=
  match own o !! k with
  | Some c => negb (cell_truthy c)
  | None => true
  end.

(** The callback of [headers.forEach], with the warnings it prints. *)
Definition store (o : object Json) (values : list string) (index : nat)
    (header : string) : object Json * list string :=
  let value := cell_text values index in
  if decide (header = "tags_model" ∨ header = "tags_user") then
    (define o header
       (CList (match value with Some v => split ";" v | None => [] end)), [])
  else
    let value :=
      if decide (header = "emotion_score_score")
      then parse_float_text <$> value else value in
    if decide (header = "embedding") then
      match value with
      | Some v =>
          match json_parse v with
          | inl j => (define o header (CJson j), [])
          | inr message => (define o header CNull, [warning message])
          end
      | None => (define o header CNull, [])
      end
    else (assign o header value, []).

(** [headers.forEach(...)], from the header at position [index] on. *)
Fixpoint store_all (values : list string) (index : nat)
    (headers : list string) (o : object Json) : object Json * list string :=
  match headers with
  | [] => (o, [])
  | header :: rest =>
      let '(o1, w1) := store o values index header in
      let '(o2, w2) := store_all values (S index) rest o1 in
      (o2, w1 ++ w2)
  end.

(** The callback of [map]: one line into one entry. *)
Definition parse_row (headers : list string) (row : nat) (line : string)
  : object Json * list string :=
  let values := split "," line in
  let '(o, warnings) := store_all values 0 headers empty_object in
  let o := if lacks o "id" then define o "id" (CText (random_id row)) else o in
  let o :=
    if lacks o "user_id" then define o "user_id" (CText "default-user")
    else o in
  (o, warnings).

(** [parseCSV]: the entries and the warnings printed on the way, or the
    [TypeError] of [lines[0].split] when there is no line. *)
Definition parseCSV (content : string)
  : Dynamic.completion (list (object Json) * list string) :=
  match lines_of content with
  | [] => Dynamic.ThrowTypeError
  | first :: _ =>
      let headers := split "," first in
      let rows := imap (parse_row headers) (take 20 (drop 1 (lines_of content))) in
      Dynamic.Normal (map fst rows, concat (map snd rows))
  end.

End Loader.

(** The header names of a file, [[]] when it has no line. *)
Definition headers_of (content : string) : list string :=
  match lines_of content with
  | [] => []
  | first :: _ => split "," first
  end.

End Csv.

(** ** Auxiliary definitions for the loader's properties *)

(** What the loader can leave under a key: a list only in a tag column
    and always there, a parsed value only under "embedding", and
    elsewhere [null] or a text that is trimmed and not empty, the number
    column and the drawn id excepted. *)
Definition cell_fits {Json} (k : string) (c : Csv.cell Json) : Prop :=
  match c with
  | Csv.CList _ => k = "tags_model" ∨ k = "tags_user"
  | Csv.CJson _ => k = "embedding"
  | Csv.CNull => k ≠ "tags_model" ∧ k ≠ "tags_user"
  | Csv.CText s =>
      k ≠ "tags_model" ∧ k ≠ "tags_user" ∧ k ≠ "embedding"
      ∧ (k = "emotion_score_score" ∨ k = "id"
         ∨ (s ≠ "" ∧ Csv.trim s = s))
  end.

(** Every own property of the entry fits its key. *)
Definition fits {Json} (o : Csv.object Json) : Prop :=
  ∀ k c, Csv.own o !! k = Some c → cell_fits k c.

(** The property value as the classifier's untyped model sees it; a
    parsed JSON value has no counterpart there. *)
Definition as_value {Json} (c : option (Csv.cell Json))
  : option Dynamic.jsvalue :=
  match c with
  | None => Some Dynamic.JUndefined
  | Some Csv.CNull => Some Dynamic.JNull
  | Some (Csv.CText s) => Some (Dynamic.JString s)
  | Some (Csv.CList items) => Some (Dynamic.JArray items)
  | Some (Csv.CJson _) => None
  end.

(** The score as the comparisons of the classifier see it: a text goes
    through [ToNumber], here [to_number]. *)
Definition as_score {Json} (to_number : string → float)
    (c : option (Csv.cell Json)) : option score :=
  match c with
  | None => Some ScoreAbsent
  | Some Csv.CNull => Some ScoreNull
  | Some (Csv.CText s) => Some (ScoreNumber (to_number s))
  | Some (Csv.CList _) | Some (Csv.CJson _) => None
  end.

(** A loaded entry as an entry of the classifier's untyped model. *)
Definition as_raw {Json} (to_number : string → float) (o : Csv.object Json)
  : option Dynamic.RawEntry :=
  t ← as_value (Csv.own o !! "transcript_user");
  g ← as_value (Csv.own o !! "tags_user");
  s ← as_score to_number (Csv.own o !! "emotion_score_score");
  Some {| Dynamic.raw_transcript_user := t;
          Dynamic.raw_tags_user := g;
          Dynamic.raw_emotion_score_score := s |}.

(** The entry has a text for a transcript. *)
Definition has_transcript {Json} (o : Csv.object Json) : Prop :=
  ∃ s, Csv.own o !! "transcript_user" = Some (Csv.CText s).

(** Stand-ins for the loader's parameters, for the examples: the number
    text is kept as it is, only the text [1] parses as JSON, every parsed
    value is truthy, the id drawn in any row is the text rnd, and every
    number text counts as zero. *)
Definition sample_float (v : string) : string := v.

Definition sample_json (v : string) : unit + string :=
  if String.eqb v "[1]" then inl tt else inr "Unexpected token".

Definition sample_truthy (j : unit) : bool := true.

Definition sample_random (row : nat) : string := "rnd".

Definition sample_number (v : string) : float := 0%float.

Definition sample_parseCSV (content : string)
  : Dynamic.completion (list (Csv.object unit) * list string) :=
  Csv.parseCSV sample_float sample_json sample_truthy sample_random content.

(** A header line, a blank line and two rows, the second one short. *)
Definition sample_content : string :=
  "id,transcript_user,tags_user,emotion_score_score,embedding"
  +:+ String "010" ("   "
  +:+ String "010" ("7, I want to build ,work;home, 0.4 ,[1]"
  +:+ String "010" ",hello")).

(** The entries loaded from the sample. *)
Definition sample_entries : list (Csv.object unit) :=
  match sample_parseCSV sample_content with
  | Dynamic.Normal (entries, _) => entries
  | Dynamic.ThrowTypeError => []
  end.

(** The first entry loaded from the sample. *)
Definition sample_entry : Csv.object unit :=
  match sample_entries with
  | o :: _ => o
  | [] => Csv.empty_object
  end.

(** The warnings printed while loading the sample. *)
Definition sample_warnings : list string :=
  match sample_parseCSV sample_content with
  | Dynamic.Normal (_, warnings) => warnings
  | Dynamic.ThrowTypeError => []
  end.

(** ** The classifier on entry objects

    An entry as the classifier receives it at run time: a plain object,
    given by its own properties.  The classifier reads three of them by
    name; whatever else the object carries (id, user_id, tags_model,
    embedding, ...) sits in the same map.  [to_number] stands for
    [ToNumber] on strings, which the comparisons of lines 79 and 81
    apply to a score that is not a number. *)

Module Objects.

(** [e.k]: the own property, [undefined] when there is none
    ([Object.prototype] has no property of the three names read). *)
Definition property (e : gmap string Dynamic.jsvalue) (k : string)
  : Dynamic.jsvalue :=
  match e !! k with
  | Some v => v
  | None => Dynamic.JUndefined
  end.

Section Classifier.

Variable to_number : string → float.

(** The score as lines 78-84 see it: [null] is skipped, a number is
    compared as it is, a string through [ToNumber], an array through its
    [toString], the items joined by commas. *)
Definition score_of (v : Dynamic.jsvalue) : score :=
  match v with
  | Dynamic.JUndefined => ScoreAbsent
  | Dynamic.JNull => ScoreNull
  | Dynamic.JNumber x => ScoreNumber x
  | Dynamic.JString s => ScoreNumber (to_number s)
  | Dynamic.JArray items => ScoreNumber (to_number (Csv.join "," items))
  end.

(** One turn of the loop of lines 24-113. *)
Definition loop_body (st : gmap string primitive * list Idea)
    (e : gmap string Dynamic.jsvalue)
  : Dynamic.completion (gmap string primitive * list Idea) :=
  tags ← Dynamic.iterate (property e "tags_user");
  let tf := fold_left count_tag tags st.1 in
  transcript ← Dynamic.string_receiver (property e "transcript_user");
  let text := toLowerCase transcript in
  if detects text
  then Dynamic.Normal
         (tf, st.2 ++ [build_idea transcript text
                         (score_of (property e "emotion_score_score"))])
  else Dynamic.Normal (tf, st.2).

Fixpoint loop (entries : list (gmap string Dynamic.jsvalue))
    (st : gmap string primitive * list Idea)
  : Dynamic.completion (gmap string primitive * list Idea) :=
  match entries with
  | [] => Dynamic.Normal st
  | e :: rest => st' ← loop_body st e; loop rest st'
  end.

Definition processEntries (entries : list (gmap string Dynamic.jsvalue))
  : Dynamic.completion ProcessedResult :=
  st ← loop entries (∅, []);
  Dynamic.Normal
    {| summary :=
         "Analysis of " +:+ of_length (length entries) +:+
         " entries found " +:+ of_length (length st.2) +:+
         " potential ideas";
       tagFrequencies := st.1;
       ideas := st.2 |}.

(** The three values the loop reads off an entry object. *)
Definition view (e : gmap string Dynamic.jsvalue) : Dynamic.RawEntry :=
  {| Dynamic.raw_transcript_user := property e "transcript_user";
     Dynamic.raw_tags_user := property e "tags_user";
     Dynamic.raw_emotion_score_score :=
       score_of (property e "emotion_score_score") |}.

End Classifier.

(** A typed entry as an object: its three fields under their names, on
    top of any other properties. *)
Definition of_entry {Extra} (others : gmap string Dynamic.jsvalue)
    (e : VoiceEntry Extra) : gmap string Dynamic.jsvalue :=
  <["transcript_user" := Dynamic.JString (transcript_user e)]>
    (<["tags_user" := Dynamic.JArray (tags_user e)]>
       (match emotion_score_score e with
        | ScoreAbsent => delete "emotion_score_score" others
        | ScoreNull => <["emotion_score_score" := Dynamic.JNull]> others
        | ScoreNumber x =>
            <["emotion_score_score" := Dynamic.JNumber x]> others
        end)).

End Objects.

(** Two entry objects agree on the three properties the classifier
    reads: each is missing in both, or holds the same value in both. *)
Definition same_read_properties (e1 e2 : gmap string Dynamic.jsvalue)
  : Prop :=
  e1 !! "transcript_user" = e2 !! "transcript_user"
  ∧ e1 !! "tags_user" = e2 !! "tags_user"
  ∧ e1 !! "emotion_score_score" = e2 !! "emotion_score_score".

(** [undefined], [null] or a number: what [for ... of] cannot iterate. *)
Definition not_iterable (v : Dynamic.jsvalue) : Prop :=
  v = Dynamic.JUndefined ∨ v = Dynamic.JNull ∨ ∃ x, v = Dynamic.JNumber x.

(** [undefined], [null], a number or an array: what has no
    [toLowerCase] to call. *)
Definition not_a_string (v : Dynamic.jsvalue) : Prop :=
  v = Dynamic.JUndefined ∨ v = Dynamic.JNull
  ∨ (∃ x, v = Dynamic.JNumber x) ∨ ∃ items, v = Dynamic.JArray items.

(** Two entry objects that differ in everything the classifier does not
    read. *)
Definition sample_object_1 : gmap string Dynamic.jsvalue :=
  <["id" := Dynamic.JString "1"]>
    (<["user_id" := Dynamic.JString "ann"]>
       (<["transcript_user" := Dynamic.JString "I want to build a new app"]>
          (<["tags_user" := Dynamic.JArray ["work"]]>
             (<["emotion_score_score" := Dynamic.JNumber 0.4]> ∅)))).

Definition sample_object_2 : gmap string Dynamic.jsvalue :=
  <["id" := Dynamic.JString "2"]>
    (<["tags_model" := Dynamic.JArray ["app"; "idea"]]>
       (<["transcript_user" := Dynamic.JString "I want to build a new app"]>
          (<["tags_user" := Dynamic.JArray ["work"]]>
             (<["emotion_score_score" := Dynamic.JNumber 0.4]> ∅)))).


(** A file whose second row has an embedding cell that is not JSON. *)
Definition sample_bad_content : string :=
  "id,embedding" +:+ String "010" ("1,[1]" +:+ String "010" "2,oops").

Definition sample_bad_warnings : list string :=
  match sample_parseCSV sample_bad_content with
  | Dynamic.Normal (_, warnings) => warnings
  | Dynamic.ThrowTypeError => []
  end.

Definition sample_bad_entries : list (Csv.object unit) :=
  match sample_parseCSV sample_bad_content with
  | Dynamic.Normal (entries, _) => entries
  | Dynamic.ThrowTypeError => []
  end.


(** ** The remaining rule tables of the classifier

    Lines 43-48, 64-71 and 95-100 of the source, as ordered tables
    of plain containment tests. *)

Module Rules.

Definition status_table : list (string * list string) :=
  [ ("in progress", ["already started"; "in progress"; "working on"]);
    ("completed", ["finished"; "completed"; "done"]) ].

Definition belief_table : list (string * list string) :=
  [ ("high", ["definitely"; "absolutely"; "must"; "will"]);
    ("low", ["maybe"; "perhaps"; "might"; "could"]) ].

(** The three due-date phrases, in the order they are tried. *)
Definition due_date_phrases : list string :=
  ["tomorrow"; "next week"; "this weekend"].

(** The first phrase of the list that the text contains. *)
Definition first_included (phrases : list string) (lowered : string)
  : option string :=
  List.find (λ p, includes p lowered) phrases.

End Rules.

(** The number held under a tag, 0 when the tag is not held with a
    number. *)
Definition tag_count (r : ProcessedResult) (k : string) : nat :=
  match tagFrequencies r !! k with
  | Some (Number n) => n
  | _ => 0
  end.

(** An untyped entry on which the loop body throws: its tags are not
    iterable, or its transcript is not a string. *)
Definition ill_typed (e : Dynamic.RawEntry) : Prop :=
  Dynamic.iterate (Dynamic.raw_tags_user e) = Dynamic.ThrowTypeError
  ∨ Dynamic.string_receiver (Dynamic.raw_transcript_user e)
    = Dynamic.ThrowTypeError.

(** [canonicalize] does not see whether a character was lower-cased. *)
Definition canonicalize_ignores_lowering (c : ascii) : bool :=
  (canonicalize (lower_char c) =? canonicalize c)%N.

(** * Properties *)

(** ** Matching on lower-cased text *)

Section Matching.

Lemma all_chars_complete (c : ascii) : In c all_chars.
Proof.
  unfold all_chars. rewrite <- (ascii_nat_embedding c).
  apply in_map, in_seq. pose proof (nat_ascii_bounded c). lia.
Qed.

Lemma char_agreement_all :
  forallb (fun a => forallb (char_agreement a) all_chars) all_chars = true.
Proof. vm_compute. reflexivity. Qed.

(** On a lower-cased character, matching under [/i] against a character
    in lower case is equality. *)
Lemma char_eq_i_lower (a c : ascii) :
  lower_char a = a →
  char_eq_i a (lower_char c) = Ascii.eqb a (lower_char c).
Proof.
  intros Ha.
  pose proof char_agreement_all as H.
  rewrite forallb_forall in H.
  specialize (H a (all_chars_complete a)).
  rewrite forallb_forall in H.
  specialize (H c (all_chars_complete c)).
  unfold char_agreement in H.
  rewrite Ha, Ascii.eqb_refl in H. simpl in H.
  by apply Bool.eqb_prop in H.
Qed.

Lemma is_lowered_cons a p :
  is_lowered (String a p) = true → lower_char a = a ∧ is_lowered p = true.
Proof.
  unfold is_lowered. cbn [toLowerCase String.eqb].
  destruct (Ascii.eqb_spec (lower_char a) a) as [Ha|]; [|done].
  by intros Hp.
Qed.

Lemma matches_at_i_lower (p s : string) :
  is_lowered p = true →
  matches_at_i p (toLowerCase s) = starts_with p (toLowerCase s).
Proof.
  revert s. induction p as [|a p IH]; intros s Hp; [by destruct s|].
  apply is_lowered_cons in Hp as [Ha Hp].
  destruct s as [|c s]; simpl; [done|].
  by rewrite char_eq_i_lower, IH.
Qed.

Lemma search_i_lower (p s : string) :
  is_lowered p = true →
  search_i p (toLowerCase s) = includes p (toLowerCase s).
Proof.
  intros Hp. induction s as [|c s IH].
  - simpl. by destruct p.
  - change (toLowerCase (String c s))
      with (String (lower_char c) (toLowerCase s)).
    cbn [search_i includes]. rewrite IH.
    change (String (lower_char c) (toLowerCase s))
      with (toLowerCase (String c s)).
    by rewrite matches_at_i_lower.
Qed.

Lemma test_i_lower (ps : list string) (s : string) :
  forallb is_lowered ps = true →
  test_i ps (toLowerCase s) = includes_any ps (toLowerCase s).
Proof.
  unfold test_i, includes_any. induction ps as [|p ps IH]; [done|].
  simpl. intros [Hp Hps]%andb_prop.
  by rewrite search_i_lower, IH.
Qed.

End Matching.

(** ** Containment, spelled out *)

Lemma starts_with_prefix (p s : string) :
  starts_with p s = true ↔ ∃ post, s = p +:+ post.
Proof.
  revert s. induction p as [|a p IH]; intros s.
  - split; [by exists s|by destruct s].
  - destruct s as [|b s]; cbn [starts_with].
    + split; [done|]. by intros [post [=]].
    + rewrite andb_true_iff, IH. split.
      * intros [Hab%Ascii.eqb_eq [post ->]]. subst b. by exists post.
      * intros [post Hs]. injection Hs as -> ->.
        split; [apply Ascii.eqb_refl|by exists post].
Qed.

(** [includes p s] holds exactly when [p] is a substring of [s]. *)
Lemma includes_substring (p s : string) :
  includes p s = true ↔ ∃ pre post, s = pre +:+ p +:+ post.
Proof.
  induction s as [|c s IH].
  - cbn [includes]. rewrite orb_false_r, starts_with_prefix. split.
    + intros [post H]. by exists "", post.
    + intros [pre [post H]]. destruct pre; [by exists post|discriminate H].
  - cbn [includes]. rewrite orb_true_iff, starts_with_prefix, IH. split.
    + intros [[post H]|[pre [post H]]].
      * by exists "", post.
      * exists (String c pre), post. by rewrite H.
    + intros [pre [post H]]. destruct pre as [|c' pre].
      * left. by exists post.
      * right. injection H as -> ->. by exists pre, post.
Qed.

Lemma toLowerCase_append (a b : string) :
  toLowerCase (a +:+ b) = toLowerCase a +:+ toLowerCase b.
Proof.
  induction a as [|c a IH]; [done|].
  change (String (lower_char c) (toLowerCase (a +:+ b))
          = String (lower_char c) (toLowerCase a +:+ toLowerCase b)).
  by rewrite IH.
Qed.

(** A transcript with a stretch that reads as the word, letter case
    apart, contains the word in the sense of [includes_nocase]. *)
Lemma includes_nocase_stretch (p pre mid post : string) :
  toLowerCase mid = toLowerCase p →
  includes_nocase p (pre +:+ mid +:+ post) = true.
Proof.
  intros Hmid. unfold includes_nocase. apply includes_substring.
  exists (toLowerCase pre), (toLowerCase post).
  by rewrite !toLowerCase_append, Hmid.
Qed.

Lemma includes_nocase_stretch_witness :
  toLowerCase "Thinking ABOUT" = toLowerCase "thinking about"
  ∧ includes_nocase "thinking about"
      ("I am " +:+ "Thinking ABOUT" +:+ " a trip") = true.
Proof.
  split; [done|]. by apply includes_nocase_stretch.
Defined.

(** ** The loop *)

Section Loop.

Context {Extra : Type}.
Implicit Types (e : VoiceEntry Extra) (entries : list (VoiceEntry Extra)).

(** The idea list only grows at its end, by the entries that pass the
    test of line 38, in the order of the traversal. *)
Lemma loop_ideas entries (tf : gmap string primitive) (acc : list Idea) :
  (fold_left loop_body entries (tf, acc)).2
  = acc ++ map idea_of (List.filter is_idea entries).
Proof.
  revert tf acc. induction entries as [|e entries IH]; intros tf acc.
  - simpl. by rewrite app_nil_r.
  - cbn [fold_left List.filter]. unfold loop_body at 2. cbn [fst snd].
    destruct (is_idea e); rewrite IH; [|done].
    cbn [map]. by rewrite <- app_assoc.
Qed.

(** The frequency object sees the tags of all entries, one after the
    other. *)
Lemma loop_tags entries (tf : gmap string primitive) (acc : list Idea) :
  (fold_left loop_body entries (tf, acc)).1
  = fold_left count_tag (concat (map tags_user entries)) tf.
Proof.
  revert tf acc. induction entries as [|e entries IH]; intros tf acc; [done|].
  cbn [fold_left map concat]. rewrite fold_left_app.
  unfold loop_body at 2. cbn [fst snd].
  by destruct (is_idea e); rewrite IH.
Qed.

Lemma ideas_processEntries entries :
  ideas (processEntries entries) = map idea_of (List.filter is_idea entries).
Proof. unfold processEntries. cbn [ideas]. by rewrite loop_ideas. Qed.

Lemma tagFrequencies_processEntries entries :
  tagFrequencies (processEntries entries)
  = fold_left count_tag (concat (map tags_user entries)) ∅.
Proof. unfold processEntries. cbn [tagFrequencies]. by rewrite loop_tags. Qed.

(** The three regular expressions of lines 34-36, run on the lower-cased
    transcript, are the three containment tests of the specification. *)
Lemma hasIdeaVerbs_lowered (t : string) :
  hasIdeaVerbs (toLowerCase t) = Spec.verb_trigger (toLowerCase t).
Proof. by apply test_i_lower. Qed.

Lemma hasIdeaPhrases_lowered (t : string) :
  hasIdeaPhrases (toLowerCase t) = Spec.phrase_trigger (toLowerCase t).
Proof. by apply test_i_lower. Qed.

Lemma hasFutureIntent_lowered (t : string) :
  hasFutureIntent (toLowerCase t) = Spec.future_intent_trigger (toLowerCase t).
Proof. by apply test_i_lower. Qed.

Lemma is_idea_trigger_fires e : is_idea e = Spec.trigger_fires e.
Proof.
  unfold is_idea, detects, Spec.trigger_fires. cbv zeta.
  by rewrite hasIdeaVerbs_lowered, hasIdeaPhrases_lowered,
    hasFutureIntent_lowered.
Qed.

Lemma filter_is_idea entries :
  List.filter is_idea entries = List.filter Spec.trigger_fires entries.
Proof. apply filter_ext. intros e. apply is_idea_trigger_fires. Qed.

Lemma filter_sublist (f : VoiceEntry Extra → bool) entries :
  sublist (List.filter f entries) entries.
Proof.
  induction entries as [|e entries IH]; [constructor|].
  simpl. destruct (f e); by constructor.
Qed.

Lemma filter_Forall (f : VoiceEntry Extra → bool) entries :
  Forall (λ e, f e = true) (List.filter f entries).
Proof.
  induction entries as [|e entries IH]; [constructor|].
  simpl. destruct (f e) eqn:He; [by constructor|done].
Qed.

Lemma Forall2_map_diag {B} (g : VoiceEntry Extra → B)
    (P : VoiceEntry Extra → B → Prop) entries :
  (∀ e, P e (g e)) → Forall2 P entries (map g entries).
Proof. intros HP. induction entries; simpl; by constructor. Qed.

End Loop.

(** ** Idea detection *)

(** C1. An entry contributes an idea record exactly when one of the three
    triggers (verb set, phrase set, future-intent set) is contained in its
    lower-cased transcript: the idea list is the list of the records of
    the entries on which a trigger fires, and the other entries leave
    nothing in it. *)
Theorem ideas_iff_trigger_fires {Extra} (entries : list (VoiceEntry Extra)) :
  ideas (processEntries entries)
  = map idea_of (List.filter Spec.trigger_fires entries).
Proof.
  rewrite ideas_processEntries. f_equal. apply filter_is_idea.
Qed.

(** ** The summary *)

Lemma of_length_decimal (n : nat) :
  Nat.of_uint <$> NilZero.uint_of_string (of_length n) = Some n.
Proof.
  unfold of_length.
  pose proof (DecimalNat.Unsigned.of_to n) as Hof.
  destruct (Nat.to_uint n) as [|d|d|d|d|d|d|d|d|d|d] eqn:Hn.
  1: { simpl in Hof. by subst n. }
  all: rewrite NilZero.usu by done; simpl; by rewrite Hof.
Qed.

(** C3. The summary is "Analysis of N entries found M potential ideas"
    with N the number of entries and M the number of idea records, both
    in decimal; on the empty input the tag map and the idea list are
    empty and the summary contains "0 potential ideas". *)
Theorem summary_counts {Extra} (entries : list (VoiceEntry Extra)) :
  summary (processEntries entries)
  = "Analysis of " +:+ of_length (length entries) +:+ " entries found "
    +:+ of_length (length (ideas (processEntries entries)))
    +:+ " potential ideas"
  ∧ Nat.of_uint <$> NilZero.uint_of_string (of_length (length entries))
    = Some (length entries)
  ∧ tagFrequencies (processEntries (@nil (VoiceEntry Extra))) = ∅
  ∧ ideas (processEntries (@nil (VoiceEntry Extra))) = []
  ∧ summary (processEntries (@nil (VoiceEntry Extra)))
    = "Analysis of 0 entries found 0 potential ideas"
  ∧ includes "0 potential ideas"
      (summary (processEntries (@nil (VoiceEntry Extra)))) = true.
Proof.
  split; [done|]. split; [apply of_length_decimal|].
  repeat split.
Qed.

(** ** Attributes *)

Lemma category_of_lowered (t : string) :
  category_of (toLowerCase t) = Spec.category_by_order (toLowerCase t).
Proof.
  unfold category_of, Spec.category_by_order, Spec.category_table.
  cbn [Spec.first_match].
  by rewrite !test_i_lower.
Qed.

(** C4. The category of an idea is the label of the first row, in the
    order health, learning, work, personal, with a keyword in the
    lower-cased transcript, and "general" when no row has one; "I want to
    learn how to code for my job" has the work keyword "job" and is
    filed under "learning". *)
Theorem category_first_match_wins {Extra} (entries : list (VoiceEntry Extra)) :
  Forall2
    (λ e i, category i
            = Spec.category_by_order (toLowerCase (transcript_user e)))
    (List.filter is_idea entries) (ideas (processEntries entries))
  ∧ map category
      (ideas (processEntries
         [entry "I want to learn how to code for my job" [] ScoreNull]))
    = ["learning"]
  ∧ includes_any ["work"; "job"; "career"; "business"]
      (toLowerCase "I want to learn how to code for my job") = true.
Proof.
  split; [|by vm_compute].
  rewrite ideas_processEntries. apply Forall2_map_diag.
  intros e. apply category_of_lowered.
Qed.

(** C5. The origin of an idea is "spontaneous" exactly when the phrase
    trigger fires on the lower-cased transcript and "planned" otherwise,
    whatever the other two triggers say. *)
Theorem origin_type_phrase_only {Extra} (entries : list (VoiceEntry Extra)) :
  Forall2
    (λ e i,
       let lowered := toLowerCase (transcript_user e) in
       (origin_type i = "spontaneous" ↔ Spec.phrase_trigger lowered = true)
       ∧ (origin_type i = "planned" ↔ Spec.phrase_trigger lowered = false))
    (List.filter is_idea entries) (ideas (processEntries entries))
  ∧ map origin_type
      (ideas (processEntries [entry "I want to build a new app" [] ScoreNull]))
    = ["planned"]
  ∧ map origin_type
      (ideas (processEntries
         [entry "I just thought of a great solution" [] ScoreNull]))
    = ["spontaneous"].
Proof.
  split; [|by vm_compute].
  rewrite ideas_processEntries. apply Forall2_map_diag.
  intros e. cbn [idea_of build_idea origin_type]. unfold origin_type_of.
  rewrite hasIdeaPhrases_lowered.
  by destruct (Spec.phrase_trigger _).
Qed.

Lemma tone_of_by_score (s : score) : tone_of s = Spec.tone_by_score s.
Proof. by destruct s. Qed.

(** C6. The tone of an idea is "positive" when the score is a number
    above 0.3, "negative" when it is a number below -0.1, and "neutral"
    in every other case: 0.3 itself, -0.1 itself, a null score and an
    absent one are neutral. *)
Theorem tone_thresholds {Extra} (entries : list (VoiceEntry Extra)) :
  Forall2
    (λ e i, tone i = Spec.tone_by_score (emotion_score_score e))
    (List.filter is_idea entries) (ideas (processEntries entries))
  ∧ tone_of (ScoreNumber 0.3) = "neutral"
  ∧ tone_of (ScoreNumber (-0.1)) = "neutral"
  ∧ tone_of ScoreNull = "neutral"
  ∧ tone_of ScoreAbsent = "neutral".
Proof.
  split; [|by vm_compute].
  rewrite ideas_processEntries. apply Forall2_map_diag.
  intros e. apply tone_of_by_score.
Qed.

(** ** The idea list against the input *)

(** C7. There are no more ideas than entries; the ideas are the records
    of a subsequence of the entries, one record per entry of it and in
    its order; a trigger fires on each of these entries, and the task
    text of a record is the transcript of its entry, unchanged. *)
Theorem ideas_subsequence {Extra} (entries : list (VoiceEntry Extra)) :
  (length (ideas (processEntries entries)) ≤ length entries)%nat
  ∧ ∃ sources : list (VoiceEntry Extra),
      sublist sources entries
      ∧ Forall (λ e, Spec.trigger_fires e = true) sources
      ∧ ideas (processEntries entries) = map idea_of sources
      ∧ map task_text (ideas (processEntries entries))
        = map transcript_user sources.
Proof.
  rewrite ideas_processEntries, filter_is_idea.
  split.
  - rewrite length_map. apply sublist_length, filter_sublist.
  - exists (List.filter Spec.trigger_fires entries).
    split; [apply filter_sublist|]. split; [apply filter_Forall|].
    split; [done|]. by rewrite map_map.
Qed.

(** ** Tag frequencies *)

Lemma append_assoc (a b c : string) : (a +:+ b) +:+ c = a +:+ (b +:+ c).
Proof.
  induction a as [|x a IH]; [done|].
  change (String x ((a +:+ b) +:+ c) = String x (a +:+ (b +:+ c))).
  by rewrite IH.
Qed.

Lemma native_source_nonempty (name : string) (rest : string) :
  String.eqb (native_source name +:+ rest) "" = false.
Proof. done. Qed.

Lemma held_after_S (k : string) (n : nat) :
  k ≠ "__proto__" →
  held_after k (S n)
  = match prototype_get k with
    | NativeFunction name => Some (Str (native_source name +:+ ones (S n)))
    | ObjectPrototype | Prim _ => Some (Number (S n))
    end.
Proof. intros Hk. unfold held_after. by rewrite decide_False. Qed.

Lemma held_after_proto (n : nat) : held_after "__proto__" n = None.
Proof. by destruct n. Qed.

(** A first read of a key: [Object.prototype] answers with a function,
    or with nothing, except under ["__proto__"]. *)
Lemma prototype_get_cases (k : string) :
  k ≠ "__proto__" →
  prototype_get k = Prim Undefined ∨ ∃ name, prototype_get k = NativeFunction name.
Proof.
  intros Hk. unfold prototype_get. rewrite decide_False by done.
  destruct (decide (k = "constructor")); [by eauto|].
  destruct (bool_decide _); by eauto.
Qed.

(** One count of [t] moves every key from what it held after [cnt k]
    counts to what it holds after one more count of [t]. *)
Lemma count_tag_held (tf : gmap string primitive) (t : string)
    (cnt : string → nat) :
  (∀ k, tf !! k = held_after k (cnt k)) →
  ∀ k, count_tag tf t !! k
       = held_after k (cnt k + if decide (k = t) then 1 else 0).
Proof.
  intros Htf k. unfold count_tag, set.
  destruct (decide (k = t)) as [->|Hne].
  - destruct (decide (t = "__proto__")) as [->|Hp].
    + by rewrite Htf, !held_after_proto.
    + rewrite lookup_insert_eq. unfold get. rewrite Htf.
      replace (cnt t + 1)%nat with (S (cnt t)) by lia.
      rewrite held_after_S by done.
      destruct (cnt t) as [|n].
      * cbn [held_after].
        destruct (prototype_get_cases t Hp) as [->|[name ->]]; done.
      * rewrite held_after_S by done.
        destruct (prototype_get_cases t Hp) as [->|[name ->]].
        -- cbn. do 2 f_equal. lia.
        -- unfold or_zero, truthy. rewrite native_source_nonempty.
           cbn [negb plus_one ones]. by rewrite !append_assoc.
  - rewrite Nat.add_0_r.
    destruct (decide (t = "__proto__")); [apply Htf|].
    rewrite lookup_insert_ne by done. apply Htf.
Qed.

Lemma fold_count_tag_held (tags : list string) (tf : gmap string primitive)
    (cnt : string → nat) :
  (∀ k, tf !! k = held_after k (cnt k)) →
  ∀ k, fold_left count_tag tags tf !! k
       = held_after k (cnt k + count_occ string_dec tags k).
Proof.
  revert tf cnt. induction tags as [|t tags IH]; intros tf cnt Htf k.
  - simpl. by rewrite Nat.add_0_r.
  - cbn [fold_left].
    rewrite (IH _ (λ k, cnt k + if decide (k = t) then 1 else 0)%nat)
      by by apply count_tag_held.
    f_equal. cbn [count_occ].
    destruct (string_dec t k) as [->|Hne].
    + rewrite decide_True by done. lia.
    + rewrite decide_False by done. lia.
Qed.

(** What [tagFrequencies] holds under every key, for every input. *)
Lemma tagFrequencies_held {Extra} (entries : list (VoiceEntry Extra))
    (k : string) :
  tagFrequencies (processEntries entries) !! k
  = held_after k (count_occ string_dec (all_tags entries) k).
Proof.
  rewrite tagFrequencies_processEntries.
  by rewrite (fold_count_tag_held _ ∅ (λ _, 0)).
Qed.

(** X11. A tag that names no property of [Object.prototype] is held with
    the number of its occurrences, and is not held when it never occurs. *)
Lemma plain_tag_counted {Extra} (entries : list (VoiceEntry Extra))
    (k : string) :
  plain_tag k →
  tagFrequencies (processEntries entries) !! k
  = match count_occ string_dec (all_tags entries) k with
    | O => None
    | S n => Some (Number (S n))
    end.
Proof.
  intros Hk. rewrite tagFrequencies_held.
  destruct (count_occ _ _ _) as [|n]; [done|].
  rewrite held_after_S.
  - by rewrite Hk.
  - intros ->. discriminate Hk.
Qed.

Lemma plain_tag_counted_witness :
  plain_tag "work"
  ∧ tagFrequencies
      (processEntries [entry "" ["work"; "important"] ScoreNull;
                       entry "" ["personal"; "work"] ScoreNull]) !! "work"
    = Some (Number 2).
Proof.
  split; [done|]. by rewrite (plain_tag_counted _ "work").
Defined.

Lemma all_tags_app {Extra} (es1 es2 : list (VoiceEntry Extra)) :
  all_tags (es1 ++ es2) = all_tags es1 ++ all_tags es2.
Proof. unfold all_tags. by rewrite map_app, concat_app. Qed.

Lemma all_tags_Permutation {Extra} (es1 es2 : list (VoiceEntry Extra)) :
  Permutation es1 es2 → Permutation (all_tags es1) (all_tags es2).
Proof.
  unfold all_tags. induction 1 as [|e l l' _ IH|e e' l|l l' l'' _ IH1 _ IH2].
  - done.
  - simpl. by apply Permutation_app_head.
  - simpl. rewrite !app_assoc. apply Permutation_app_tail, Permutation_app_comm.
  - by etransitivity.
Qed.

(** X10. The frequency object does not depend on the order of the
    entries. *)
Lemma tagFrequencies_Permutation {Extra} (es1 es2 : list (VoiceEntry Extra)) :
  Permutation es1 es2 →
  tagFrequencies (processEntries es1) = tagFrequencies (processEntries es2).
Proof.
  intros Hp. apply map_eq. intros k. rewrite !tagFrequencies_held.
  f_equal. revert k. apply Permutation_count_occ.
  by apply all_tags_Permutation.
Qed.

(** Occurrences add up over a concatenation of inputs. *)
Lemma all_tags_count_additive {Extra} (es1 es2 : list (VoiceEntry Extra))
    (k : string) :
  count_occ string_dec (all_tags (es1 ++ es2)) k
  = (count_occ string_dec (all_tags es1) k
     + count_occ string_dec (all_tags es2) k)%nat.
Proof. by rewrite all_tags_app, count_occ_app. Qed.

(** The example of the test suite. *)
Lemma tagFrequencies_example :
  tagFrequencies
    (processEntries [entry "" ["work"; "important"] ScoreNull;
                     entry "" ["personal"; "work"] ScoreNull])
  = <["work" := Number 2]> (<["important" := Number 1]>
      (<["personal" := Number 1]> ∅)).
Proof. by vm_compute. Qed.

(** C2, on the tags that [Object.prototype] knows.  The claim asks for
    the number of occurrences under every tag.  The tag "constructor",
    met once, is held with a string, the text of the inherited function
    followed by the character 1; met twice, with that text followed by
    11; the tag "__proto__" is not held at all. *)
Theorem tagFrequencies_inherited_names :
  tagFrequencies (processEntries [entry "" ["constructor"] ScoreNull])
    !! "constructor"
  = Some (Str "function Object() { [native code] }1")
  ∧ tagFrequencies
      (processEntries [entry "" ["constructor"] ScoreNull;
                       entry "" ["constructor"] ScoreNull])
      !! "constructor"
    = Some (Str "function Object() { [native code] }11")
  ∧ tagFrequencies (processEntries [entry "" ["__proto__"] ScoreNull])
      !! "__proto__"
    = None
  ∧ count_occ string_dec
      (all_tags [entry "" ["constructor"] ScoreNull]) "constructor" = 1%nat.
Proof. by vm_compute. Qed.

(** ** Totality *)

Lemma dynamic_loop_typed {Extra} (entries : list (VoiceEntry Extra))
    (st : gmap string primitive * list Idea) :
  Dynamic.loop (map Dynamic.of_typed entries) st
  = Dynamic.Normal (fold_left loop_body entries st).
Proof.
  revert st. induction entries as [|e entries IH]; intros st; [done|].
  cbn [map Dynamic.loop fold_left].
  unfold Dynamic.loop_body, loop_body, is_idea, idea_of. cbn.
  destruct (detects _); cbn; apply IH.
Qed.

(** On values of the wrong type the same text does throw. *)
Lemma dynamic_throws_on_null_transcript :
  Dynamic.processEntries
    [ {| Dynamic.raw_transcript_user := Dynamic.JNull;
         Dynamic.raw_tags_user := Dynamic.JArray [];
         Dynamic.raw_emotion_score_score := ScoreNull |} ]
  = Dynamic.ThrowTypeError
  ∧ Dynamic.processEntries
      [ {| Dynamic.raw_transcript_user := Dynamic.JString "";
           Dynamic.raw_tags_user := Dynamic.JUndefined;
           Dynamic.raw_emotion_score_score := ScoreNull |} ]
    = Dynamic.ThrowTypeError.
Proof. done. Qed.

Lemma build_idea_well_formed (transcript text : string) (s : score) :
  well_formed_idea (build_idea transcript text s).
Proof.
  unfold well_formed_idea, build_idea. cbn.
  unfold status_of, category_of, due_date_of, origin_type_of,
    refinement_level_of, belief_level_of, tone_of.
  repeat split.
  all: repeat match goal with
       | |- context [if ?b then _ else _] => destruct b
       | |- context [match ?x with _ => _ end] => destruct x
       end.
  all: set_solver.
Qed.

Lemma held_after_Some (k : string) (n : nat) :
  is_Some (held_after k n) → (0 < n)%nat.
Proof. destruct n; [by intros [? [=]]|lia]. Qed.

(** C8. On every well-typed input, with or without entries, tags or a
    score, the classifier returns and does not throw; what it returns
    has the summary line with both counts, idea records whose attributes
    all take one of their listed values, and a frequency object whose
    keys are tags of the input. *)
Theorem processEntries_total {Extra} (entries : list (VoiceEntry Extra)) :
  Dynamic.processEntries (map Dynamic.of_typed entries)
  = Dynamic.Normal (processEntries entries)
  ∧ well_formed (length entries) (all_tags entries) (processEntries entries).
Proof.
  split.
  - unfold Dynamic.processEntries. rewrite dynamic_loop_typed.
    cbn. by rewrite length_map.
  - split; [done|]. split.
    + rewrite ideas_processEntries. apply List.Forall_forall.
      intros i [e [<- _]]%in_map_iff. apply build_idea_well_formed.
    + intros k Hk. rewrite tagFrequencies_held in Hk.
      apply held_after_Some in Hk.
      apply list_elem_of_In, (count_occ_In string_dec), Hk.
Qed.

(** ** Determinism *)

Lemma objects_loop_body_view (to_number : string → float)
    (st : gmap string primitive * list Idea)
    (e : gmap string Dynamic.jsvalue) :
  Objects.loop_body to_number st e
  = Dynamic.loop_body st (Objects.view to_number e).
Proof. done. Qed.

Lemma objects_loop_view (to_number : string → float)
    (entries : list (gmap string Dynamic.jsvalue))
    (st : gmap string primitive * list Idea) :
  Objects.loop to_number entries st
  = Dynamic.loop (map (Objects.view to_number) entries) st.
Proof.
  revert st. induction entries as [|e entries IH]; intros st; [done|].
  cbn [Objects.loop map Dynamic.loop]. rewrite objects_loop_body_view.
  destruct (Dynamic.loop_body st _) as [st'|]; cbn; [apply IH|done].
Qed.

Lemma objects_processEntries_view (to_number : string → float)
    (entries : list (gmap string Dynamic.jsvalue)) :
  Objects.processEntries to_number entries
  = Dynamic.processEntries (map (Objects.view to_number) entries).
Proof.
  unfold Objects.processEntries, Dynamic.processEntries.
  by rewrite objects_loop_view, length_map.
Qed.

(** On a typed entry, whatever other properties come with it, the
    object classifier does what the typed classifier does. *)
Lemma objects_view_of_entry {Extra} (to_number : string → float)
    (others : gmap string Dynamic.jsvalue) (e : VoiceEntry Extra) :
  Objects.view to_number (Objects.of_entry others e) = Dynamic.of_typed e.
Proof.
  unfold Objects.view, Objects.of_entry, Objects.property, Dynamic.of_typed.
  rewrite lookup_insert_eq, lookup_insert_ne, lookup_insert_eq by done.
  rewrite !lookup_insert_ne by done.
  destruct (emotion_score_score e); by simplify_map_eq.
Qed.

Lemma objects_typed {Extra} (to_number : string → float)
    (entries : list (gmap string Dynamic.jsvalue * VoiceEntry Extra)) :
  Objects.processEntries to_number
    (map (λ p, Objects.of_entry p.1 p.2) entries)
  = Dynamic.Normal (processEntries (map snd entries)).
Proof.
  rewrite objects_processEntries_view, map_map.
  rewrite (map_ext _ (λ p, Dynamic.of_typed p.2))
    by (intros p; apply objects_view_of_entry).
  rewrite <- (map_map snd Dynamic.of_typed).
  unfold Dynamic.processEntries. rewrite dynamic_loop_typed.
  cbn. by rewrite length_map.
Qed.

Lemma view_same_read_properties (to_number : string → float)
    (e1 e2 : gmap string Dynamic.jsvalue) :
  same_read_properties e1 e2 →
  Objects.view to_number e1 = Objects.view to_number e2.
Proof.
  intros (Ht & Hg & Hs). unfold Objects.view, Objects.property.
  by rewrite Ht, Hg, Hs.
Qed.

(** C9. Entries are objects; the classifier reads the properties
    transcript_user, tags_user and emotion_score_score of each.  Two
    inputs whose entries agree, one by one, on these three properties
    give the same outcome, the same result or the same exception,
    whatever other properties the entries have or lack. *)
Theorem result_depends_only_on_read_properties (to_number : string → float)
    (es1 es2 : list (gmap string Dynamic.jsvalue)) :
  Forall2 same_read_properties es1 es2 →
  Objects.processEntries to_number es1 = Objects.processEntries to_number es2.
Proof.
  intros H. rewrite !objects_processEntries_view. f_equal.
  induction H as [|e1 e2 es1 es2 He _ IH]; [done|].
  cbn [map]. by rewrite (view_same_read_properties _ e1 e2 He), IH.
Qed.

Lemma result_depends_only_on_read_properties_witness :
  sample_object_1 ≠ sample_object_2
  ∧ Forall2 same_read_properties [sample_object_1] [sample_object_2]
  ∧ Objects.processEntries sample_number [sample_object_1]
    = Objects.processEntries sample_number [sample_object_2]
  ∧ ∃ r, Objects.processEntries sample_number [sample_object_1]
         = Dynamic.Normal r
         ∧ map origin_type (ideas r) = ["planned"]
         ∧ map tone (ideas r) = ["positive"].
Proof.
  assert (H : Forall2 same_read_properties
                [sample_object_1] [sample_object_2]).
  { constructor; [|constructor]. repeat split. }
  split.
  { intros Heq.
    assert (Hl : sample_object_1 !! "user_id" = sample_object_2 !! "user_id")
      by by rewrite Heq.
    discriminate Hl. }
  split; [exact H|]. split.
  - exact (result_depends_only_on_read_properties sample_number
             [sample_object_1] [sample_object_2] H).
  - eexists. by vm_compute.
Defined.

(** ** Transcripts that contain "thinking about" *)

Lemma refinement_level_of_lowered (t : string) :
  refinement_level_of (toLowerCase t)
  = Spec.first_match Spec.refinement_table "initial" (toLowerCase t).
Proof.
  unfold refinement_level_of, Spec.refinement_table.
  cbn [Spec.first_match]. by rewrite !test_i_lower.
Qed.

Lemma includes_any_here (p : string) (ps : list string) (s : string) :
  In p ps → includes p s = true → includes_any ps s = true.
Proof.
  intros Hin Hp. unfold includes_any. apply existsb_exists. eauto.
Qed.

(** C10, as stated, fails: this transcript contains "thinking about" and
    also "steps to", and its refinement level is "detailed". *)
Lemma thinking_about_not_always_conceptual :
  let e := entry "I am thinking about the steps to build it" [] ScoreNull in
  includes_nocase "thinking about" (transcript_user e) = true
  ∧ map refinement_level (ideas (processEntries [e])) = ["detailed"]
  ∧ ¬ (∀ e' : VoiceEntry unit,
         includes_nocase "thinking about" (transcript_user e') = true →
         is_idea e' = true
         ∧ origin_type (idea_of e') = "spontaneous"
         ∧ refinement_level (idea_of e') = "conceptual").
Proof.
  intros e. split; [done|]. split; [done|].
  intros H. specialize (H e eq_refl) as (_ & _ & H). discriminate H.
Qed.

(** C10, amended.  An entry whose transcript contains "thinking about",
    in any case, is an idea of the output, its origin is "spontaneous",
    and its refinement level is "conceptual" unless the lower-cased
    transcript contains "detailed plan", "steps to" or "process for", in
    which case it is "detailed". *)
Theorem thinking_about_spontaneous {Extra} (entries : list (VoiceEntry Extra))
    (e : VoiceEntry Extra) :
  In e entries →
  includes_nocase "thinking about" (transcript_user e) = true →
  is_idea e = true
  ∧ In (idea_of e) (ideas (processEntries entries))
  ∧ origin_type (idea_of e) = "spontaneous"
  ∧ refinement_level (idea_of e)
    = if includes_any ["detailed plan"; "steps to"; "process for"]
           (toLowerCase (transcript_user e))
      then "detailed" else "conceptual".
Proof.
  intros Hin Hc. unfold includes_nocase in Hc.
  change (toLowerCase "thinking about") with "thinking about" in Hc.
  assert (Hphrase : hasIdeaPhrases (toLowerCase (transcript_user e)) = true).
  { rewrite hasIdeaPhrases_lowered.
    apply (includes_any_here "thinking about"); [|done].
    unfold Spec.phrase_set. simpl. tauto. }
  assert (Hidea : is_idea e = true).
  { unfold is_idea, detects. rewrite Hphrase.
    by rewrite orb_true_r. }
  split; [done|]. split.
  { rewrite ideas_processEntries. apply in_map, filter_In. by split. }
  split.
  { cbn [idea_of build_idea origin_type]. unfold origin_type_of.
    by rewrite Hphrase. }
  cbn [idea_of build_idea refinement_level].
  rewrite refinement_level_of_lowered.
  unfold Spec.refinement_table. cbn [Spec.first_match].
  destruct (includes_any ["detailed plan"; _; _] _); [done|].
  by rewrite (includes_any_here "thinking about" ["thinking about"; _]
                _ (or_introl eq_refl) Hc).
Qed.

Lemma thinking_about_spontaneous_witness :
  let e := entry "I am THINKING about creating something new" [] ScoreNull in
  In e [e]
  ∧ includes_nocase "thinking about" (transcript_user e) = true
  ∧ origin_type (idea_of e) = "spontaneous"
  ∧ refinement_level (idea_of e) = "conceptual".
Proof.
  intros e.
  assert (Hin : In e [e]) by (simpl; tauto).
  assert (Hc : includes_nocase "thinking about" (transcript_user e) = true)
    by reflexivity.
  split; [exact Hin|]. split; [exact Hc|].
  destruct (thinking_about_spontaneous [e] e Hin Hc) as (_ & _ & Ho & Hr).
  split; [exact Ho|exact Hr].
Defined.

(** ** The assertions of the repository's test suite, replayed *)

Lemma test_handles_empty_entries_array :
  let result := processEntries (@nil (VoiceEntry unit)) in
  tagFrequencies result = ∅ ∧ ideas result = []
  ∧ includes "0 potential ideas" (summary result) = true.
Proof. done. Qed.

Lemma test_correctly_counts_multiple_tags :
  let result :=
    processEntries [entry "" ["work"; "important"; "reflection"] ScoreNull;
                    entry "" ["personal"; "reflection"] ScoreNull] in
  tagFrequencies result !! "work" = Some (Number 1)
  ∧ tagFrequencies result !! "important" = Some (Number 1)
  ∧ tagFrequencies result !! "reflection" = Some (Number 2)
  ∧ tagFrequencies result !! "personal" = Some (Number 1).
Proof. by vm_compute. Qed.

Lemma test_handles_different_status_values :
  map status
    (ideas (processEntries
       [entry "I am already started working on this project to build something"
              [] ScoreNull]))
  = ["in progress"]
  ∧ map status
      (ideas (processEntries
         [entry "I finished this task yesterday to create something"
                [] ScoreNull]))
    = ["completed"].
Proof. by vm_compute. Qed.

Lemma test_sets_tone_from_emotion_score :
  map tone
    (ideas (processEntries
       [entry "I want to build something new" [] (ScoreNumber 0.4)]))
  = ["positive"]
  ∧ map tone
      (ideas (processEntries
         [entry "I want to create something different" []
                (ScoreNumber (-0.2))]))
    = ["negative"].
Proof. by vm_compute. Qed.

Lemma test_sets_refinement_levels :
  map refinement_level
    (ideas (processEntries
       [entry "I have a detailed plan for this project to build something"
              [] ScoreNull]))
  = ["detailed"]
  ∧ map refinement_level
      (ideas (processEntries
         [entry "I am thinking about creating something new" [] ScoreNull]))
    = ["conceptual"].
Proof. by vm_compute. Qed.

Lemma test_sets_belief_levels :
  map belief_level
    (ideas (processEntries
       [entry "I will definitely build this app" [] ScoreNull]))
  = ["high"]
  ∧ map belief_level
      (ideas (processEntries
         [entry "I might create this if I have time" [] ScoreNull]))
    = ["low"].
Proof. by vm_compute. Qed.

Lemma test_detects_categories :
  map category
    (ideas (processEntries [entry "I need to build this for work" [] ScoreNull]))
  = ["work"]
  ∧ map category
      (ideas (processEntries
         [entry "I want to learn how to code and build an app" [] ScoreNull]))
    = ["learning"]
  ∧ map category
      (ideas (processEntries
         [entry "I need to start a new workout plan for my health" []
                ScoreNull]))
    = ["health"]
  ∧ map category
      (ideas (processEntries
         [entry "I want to improve my personal relationships and build better connections"
                [] ScoreNull]))
    = ["personal"].
Proof. by vm_compute. Qed.

Lemma test_extracts_due_dates :
  map due_date
    (ideas (processEntries
       [entry "I need to finish this tomorrow and build something" []
              ScoreNull]))
  = [Some "tomorrow"]
  ∧ map due_date
      (ideas (processEntries
         [entry "I want to start this this weekend and create something" []
                ScoreNull]))
    = [Some "this weekend"]
  ∧ map due_date
      (ideas (processEntries
         [entry "I plan to begin next week and develop something" []
                ScoreNull]))
    = [Some "next week"].
Proof. by vm_compute. Qed.

(** The inputs the totality requirement names, run on the untyped model. *)
Lemma test_edge_inputs_return :
  Dynamic.processEntries [] = Dynamic.Normal (processEntries (@nil (VoiceEntry unit)))
  ∧ ∃ r, Dynamic.processEntries
           (map Dynamic.of_typed
              [entry "I want to try" [] ScoreAbsent;
               entry "how about a walk" [] ScoreNull;
               entry "" [] (ScoreNumber nan)])
         = Dynamic.Normal r
         ∧ map tone (ideas r) = ["neutral"; "neutral"]
         ∧ tagFrequencies r = ∅.
Proof. split; [done|]. eexists. by vm_compute. Qed.

(** * Further properties of the classifier *)

(** ** The other attributes *)

(** X1. The status of an idea is "in progress" when the lower-cased
    transcript contains "already started", "in progress" or "working on";
    failing that, "completed" when it contains "finished", "completed" or
    "done"; and "new" otherwise. *)
Theorem status_first_match_wins {Extra} (entries : list (VoiceEntry Extra)) :
  Forall2
    (λ e i, status i
            = Spec.first_match Rules.status_table "new"
                (toLowerCase (transcript_user e)))
    (List.filter is_idea entries) (ideas (processEntries entries)).
Proof.
  rewrite ideas_processEntries. apply Forall2_map_diag. intros e.
  cbn [idea_of build_idea status]. unfold status_of, Rules.status_table.
  cbn [Spec.first_match]. by rewrite !test_i_lower.
Qed.

(** X2. The due date of an idea is the first of "tomorrow", "next week",
    "this weekend" that the lower-cased transcript contains, and is
    absent when it contains none of them. *)
Theorem due_date_first_phrase {Extra} (entries : list (VoiceEntry Extra)) :
  Forall2
    (λ e i, due_date i
            = Rules.first_included Rules.due_date_phrases
                (toLowerCase (transcript_user e)))
    (List.filter is_idea entries) (ideas (processEntries entries)).
Proof.
  rewrite ideas_processEntries. apply Forall2_map_diag. intros e.
  cbn [idea_of build_idea due_date].
  unfold due_date_of, Rules.first_included, Rules.due_date_phrases.
  rewrite !test_i_lower by done. unfold includes_any. cbn [existsb find].
  rewrite !orb_false_r.
  by repeat destruct (includes _ _).
Qed.

(** X3. The refinement level of an idea is the label of the first row,
    in the order detailed, conceptual, with a keyword in the lower-cased
    transcript, and "initial" when no row has one. *)
Theorem refinement_level_first_match_wins {Extra}
    (entries : list (VoiceEntry Extra)) :
  Forall2
    (λ e i, refinement_level i
            = Spec.first_match Spec.refinement_table "initial"
                (toLowerCase (transcript_user e)))
    (List.filter is_idea entries) (ideas (processEntries entries)).
Proof.
  rewrite ideas_processEntries. apply Forall2_map_diag. intros e.
  cbn [idea_of build_idea refinement_level].
  unfold refinement_level_of, Spec.refinement_table.
  cbn [Spec.first_match]. by rewrite !test_i_lower.
Qed.

(** X4. The belief level of an idea is "high" when the lower-cased
    transcript contains "definitely", "absolutely", "must" or "will";
    failing that, "low" when it contains "maybe", "perhaps", "might" or
    "could"; and "medium" otherwise. *)
Theorem belief_level_first_match_wins {Extra}
    (entries : list (VoiceEntry Extra)) :
  Forall2
    (λ e i, belief_level i
            = Spec.first_match Rules.belief_table "medium"
                (toLowerCase (transcript_user e)))
    (List.filter is_idea entries) (ideas (processEntries entries)).
Proof.
  rewrite ideas_processEntries. apply Forall2_map_diag. intros e.
  cbn [idea_of build_idea belief_level].
  unfold belief_level_of, Rules.belief_table.
  cbn [Spec.first_match]. by rewrite !test_i_lower.
Qed.

(** ** The [i] flag and the lower-casing *)

(** X5. On a lower-cased text the [i] flag is idle: a test against
    keywords written in lower case is plain containment of one of them. *)
Theorem i_flag_idle_on_lowered (keywords : list string) (t : string) :
  forallb is_lowered keywords = true →
  test_i keywords (toLowerCase t) = includes_any keywords (toLowerCase t).
Proof. apply test_i_lower. Qed.

Lemma i_flag_idle_on_lowered_witness :
  forallb is_lowered ["work"; "job"; "career"; "business"] = true
  ∧ test_i ["work"; "job"; "career"; "business"]
      (toLowerCase "My JOB is fine")
    = includes_any ["work"; "job"; "career"; "business"]
        (toLowerCase "My JOB is fine").
Proof.
  split; [reflexivity|].
  apply (i_flag_idle_on_lowered ["work"; "job"; "career"; "business"]).
  reflexivity.
Defined.

Lemma canonicalize_lower_char (c : ascii) :
  canonicalize (lower_char c) = canonicalize c.
Proof.
  assert (H : forallb canonicalize_ignores_lowering all_chars = true)
    by (vm_compute; reflexivity).
  rewrite forallb_forall in H.
  specialize (H c (all_chars_complete c)).
  by apply N.eqb_eq in H.
Qed.

Lemma matches_at_i_toLowerCase (p s : string) :
  matches_at_i p (toLowerCase s) = matches_at_i p s.
Proof.
  revert s. induction p as [|a p IH]; intros [|c s]; try done.
  cbn [toLowerCase matches_at_i]. unfold char_eq_i.
  by rewrite canonicalize_lower_char, IH.
Qed.

Lemma search_i_toLowerCase (p s : string) :
  search_i p (toLowerCase s) = search_i p s.
Proof.
  induction s as [|c s IH].
  - done.
  - change (toLowerCase (String c s))
      with (String (lower_char c) (toLowerCase s)).
    cbn [search_i]. rewrite IH.
    change (String (lower_char c) (toLowerCase s))
      with (toLowerCase (String c s)).
    by rewrite matches_at_i_toLowerCase.
Qed.

(** X6. Under the [i] flag the lower-casing is idle as well: every test
    of the source gives the same answer on the transcript as on its
    lower-cased form, whatever the keywords. *)
Theorem lowering_idle_under_i_flag (keywords : list string) (t : string) :
  test_i keywords (toLowerCase t) = test_i keywords t.
Proof.
  unfold test_i. induction keywords as [|p ps IH]; [done|].
  cbn [existsb]. by rewrite search_i_toLowerCase, IH.
Qed.

(** ** Keywords inside other words *)

Lemma includes_trans (a b s : string) :
  includes a b = true → includes b s = true → includes a s = true.
Proof.
  rewrite !includes_substring.
  intros (pre1 & post1 & ->) (pre2 & post2 & ->).
  exists (pre2 +:+ pre1), (post1 +:+ post2).
  by rewrite !append_assoc.
Qed.

(** X7. Matching is by substring, not by word.  A transcript with
    "already started" is always an idea (it contains the verb "start"),
    its status is "in progress", and its category is "health" or
    "learning", never "work", "personal" or "general": "already" contains
    the learning keyword "read". *)
Theorem already_started_reads {Extra} (e : VoiceEntry Extra) :
  includes "already started" (toLowerCase (transcript_user e)) = true →
  is_idea e = true
  ∧ status (idea_of e) = "in progress"
  ∧ (category (idea_of e) = "health" ∨ category (idea_of e) = "learning").
Proof.
  intros H. set (t := transcript_user e) in *.
  assert (Hstart : includes "start" (toLowerCase t) = true)
    by by apply (includes_trans _ "already started").
  assert (Hread : includes "read" (toLowerCase t) = true)
    by by apply (includes_trans _ "already started").
  split; [|split].
  - unfold is_idea, detects. fold t. rewrite hasIdeaVerbs_lowered.
    unfold Spec.verb_trigger.
    rewrite (includes_any_here "start" Spec.verb_set); [done| |done].
    unfold Spec.verb_set. simpl. tauto.
  - cbn [idea_of build_idea status]. fold t. unfold status_of.
    rewrite test_i_lower by done.
    rewrite (includes_any_here "already started"
               ["already started"; "in progress"; "working on"]);
      [done| |done].
    simpl. tauto.
  - cbn [idea_of build_idea category]. fold t.
    rewrite category_of_lowered.
    unfold Spec.category_by_order, Spec.category_table.
    cbn [Spec.first_match].
    destruct (includes_any ["health"; _; _; _] _); [by left|right].
    rewrite (includes_any_here "read" ["learn"; "study"; "course"; "read"]);
      [done| |done].
    simpl. tauto.
Qed.

Lemma already_started_reads_witness :
  let e := entry "I am already started working on this project to build something"
             [] ScoreNull in
  includes "already started" (toLowerCase (transcript_user e)) = true
  ∧ category (idea_of e) = "learning".
Proof.
  intros e.
  assert (H : includes "already started" (toLowerCase (transcript_user e))
              = true) by reflexivity.
  split; [exact H|].
  destruct (already_started_reads e H) as (_ & _ & [Hc|Hc]);
    [discriminate Hc|exact Hc].
Defined.

(** ** Concatenated inputs *)

(** X8. The ideas of a concatenation are the ideas of its first part
    followed by the ideas of its second part. *)
Theorem ideas_app {Extra} (es1 es2 : list (VoiceEntry Extra)) :
  ideas (processEntries (es1 ++ es2))
  = ideas (processEntries es1) ++ ideas (processEntries es2).
Proof.
  rewrite !ideas_processEntries. by rewrite List.filter_app, map_app.
Qed.

Lemma tag_count_plain {Extra} (entries : list (VoiceEntry Extra))
    (k : string) :
  plain_tag k →
  tag_count (processEntries entries) k
  = count_occ string_dec (all_tags entries) k.
Proof.
  intros Hk. unfold tag_count. rewrite tagFrequencies_held.
  destruct (count_occ _ _ _) as [|n]; [done|].
  rewrite held_after_S; [by rewrite Hk|].
  intros ->. discriminate Hk.
Qed.

(** X9. For a tag that names no property of [Object.prototype], the
    number held after a concatenation of inputs is the sum of the numbers
    held after each part. *)
Theorem tag_count_app {Extra} (es1 es2 : list (VoiceEntry Extra))
    (k : string) :
  plain_tag k →
  tag_count (processEntries (es1 ++ es2)) k
  = (tag_count (processEntries es1) k + tag_count (processEntries es2) k)%nat.
Proof.
  intros Hk. rewrite !tag_count_plain by done.
  apply all_tags_count_additive.
Qed.

Lemma tag_count_app_witness :
  plain_tag "work"
  ∧ tag_count
      (processEntries ([entry "" ["work"; "important"] ScoreNull]
                       ++ [entry "" ["personal"; "work"] ScoreNull])) "work"
    = 2%nat.
Proof.
  assert (H : plain_tag "work") by reflexivity.
  split; [exact H|].
  by rewrite (tag_count_app [entry "" ["work"; "important"] ScoreNull]
                [entry "" ["personal"; "work"] ScoreNull] "work" H).
Defined.

Lemma tagFrequencies_Permutation_witness :
  let es1 := [entry "a" ["work"; "toString"] ScoreNull;
              entry "b" ["personal"; "work"] ScoreNull] in
  let es2 := [entry "b" ["personal"; "work"] ScoreNull;
              entry "a" ["work"; "toString"] ScoreNull] in
  Permutation es1 es2
  ∧ tagFrequencies (processEntries es1) = tagFrequencies (processEntries es2).
Proof.
  intros es1 es2.
  assert (H : Permutation es1 es2) by apply perm_swap.
  split; [exact H|]. exact (tagFrequencies_Permutation es1 es2 H).
Defined.

(** ** What the frequency object holds *)

(** X12. The keys of the frequency object are the tags of the input,
    the tag "__proto__" excepted. *)
Theorem tagFrequencies_keys {Extra} (entries : list (VoiceEntry Extra))
    (k : string) :
  is_Some (tagFrequencies (processEntries entries) !! k)
  ↔ k ∈ all_tags entries ∧ k ≠ "__proto__".
Proof.
  rewrite tagFrequencies_held, list_elem_of_In,
    (count_occ_In string_dec).
  destruct (count_occ _ _ _) as [|n].
  - split; [by intros [? [=]]|]. intros [H _]. lia.
  - destruct (decide (k = "__proto__")) as [->|Hk].
    + rewrite held_after_proto. split; [by intros [? [=]]|]. by intros [_ ?].
    + rewrite held_after_S by done. split.
      * intros _. split; [lia|done].
      * intros _. destruct (prototype_get k); by eexists.
Qed.

(** X13. Whatever is held is a positive number or a non-empty text:
    never [undefined], [NaN], 0 or the empty string. *)
Theorem tagFrequencies_values {Extra} (entries : list (VoiceEntry Extra))
    (k : string) (p : primitive) :
  tagFrequencies (processEntries entries) !! k = Some p →
  (∃ n, p = Number (S n)) ∨ (∃ c s, p = Str (String c s)).
Proof.
  rewrite tagFrequencies_held.
  destruct (count_occ _ _ _) as [|n]; [done|].
  destruct (decide (k = "__proto__")) as [->|Hk].
  - by rewrite held_after_proto.
  - rewrite held_after_S by done.
    destruct (prototype_get k) as [q|name|]; intros [= <-]; eauto.
Qed.

Lemma tagFrequencies_values_witness :
  let es := [entry "" ["constructor"; "work"] ScoreNull] in
  tagFrequencies (processEntries es) !! "work" = Some (Number 1)
  ∧ ((∃ n, Number 1 = Number (S n)) ∨ (∃ c s, Number 1 = Str (String c s))).
Proof.
  intros es.
  assert (H : tagFrequencies (processEntries es) !! "work" = Some (Number 1))
    by by vm_compute.
  split; [exact H|]. exact (tagFrequencies_values es "work" (Number 1) H).
Defined.

(** X14. A tag that names a method of [Object.prototype] is held as a
    text, the source text of the inherited function followed by one
    character 1 per occurrence, and never as a number. *)
Theorem inherited_tag_held_as_text {Extra} (entries : list (VoiceEntry Extra))
    (k name : string) :
  prototype_get k = NativeFunction name →
  k ∈ all_tags entries →
  tagFrequencies (processEntries entries) !! k
  = Some (Str (native_source name
               +:+ ones (count_occ string_dec (all_tags entries) k))).
Proof.
  intros Hk Hin. rewrite tagFrequencies_held.
  apply list_elem_of_In, (count_occ_In string_dec) in Hin.
  destruct (count_occ _ _ _) as [|n]; [lia|].
  rewrite held_after_S; [by rewrite Hk|].
  intros ->. discriminate Hk.
Qed.

Lemma inherited_tag_held_as_text_witness :
  let es := [entry "" ["toString"] ScoreNull;
             entry "" ["work"; "toString"] ScoreNull] in
  prototype_get "toString" = NativeFunction "toString"
  ∧ "toString" ∈ all_tags es
  ∧ tagFrequencies (processEntries es) !! "toString"
    = Some (Str "function toString() { [native code] }11").
Proof.
  intros es.
  assert (Hk : prototype_get "toString" = NativeFunction "toString")
    by reflexivity.
  assert (Hin : "toString" ∈ all_tags es)
    by (apply list_elem_of_In; simpl; tauto).
  split; [exact Hk|]. split; [exact Hin|].
  exact (inherited_tag_held_as_text es "toString" "toString" Hk Hin).
Defined.

(** ** When the loop throws *)

Lemma dynamic_loop_body_throws (st : gmap string primitive * list Idea)
    (e : Dynamic.RawEntry) :
  (Dynamic.loop_body st e = Dynamic.ThrowTypeError ∧ ill_typed e)
  ∨ (∃ st', Dynamic.loop_body st e = Dynamic.Normal st' ∧ ¬ ill_typed e).
Proof.
  unfold Dynamic.loop_body, ill_typed.
  destruct (Dynamic.iterate _) as [tags|]; cbn; [|left; tauto].
  destruct (Dynamic.string_receiver _) as [t|]; cbn; [|left; tauto].
  right. destruct (detects _); eexists; (split; [done|]); by intros [|].
Qed.

Lemma dynamic_loop_throws (raws : list Dynamic.RawEntry)
    (st : gmap string primitive * list Idea) :
  Dynamic.loop raws st = Dynamic.ThrowTypeError ↔ Exists ill_typed raws.
Proof.
  revert st. induction raws as [|e raws IH]; intros st.
  - split; [done|]. by intros ?%Exists_nil.
  - cbn [Dynamic.loop]. rewrite Exists_cons.
    destruct (dynamic_loop_body_throws st e) as [[-> He]|(st' & -> & He)].
    + cbn. tauto.
    + cbn. rewrite IH. tauto.
Qed.

Lemma shapes_ill_typed (to_number : string → float)
    (e : gmap string Dynamic.jsvalue) :
  ill_typed (Objects.view to_number e)
  ↔ not_iterable (Objects.property e "tags_user")
    ∨ not_a_string (Objects.property e "transcript_user").
Proof.
  unfold ill_typed, not_iterable, not_a_string. cbn.
  destruct (Objects.property e "tags_user");
    destruct (Objects.property e "transcript_user"); cbn;
    split; intros H; try (by eauto 6);
    repeat match goal with
           | H : _ ∨ _ |- _ => destruct H
           | H : ∃ _, _ |- _ => destruct H
           end; done.
Qed.

(** X15. For entry objects whose properties hold [undefined], [null], a
    number, a string or an array of strings, the classifier throws
    exactly when some entry has a tags_user that is missing,
    [undefined], [null] or a number, or a transcript_user that is
    missing, [undefined], [null], a number or an array.  A string for
    tags_user does not throw, and the score never does. *)
Theorem throws_iff_unusable_property (to_number : string → float)
    (entries : list (gmap string Dynamic.jsvalue)) :
  Objects.processEntries to_number entries = Dynamic.ThrowTypeError
  ↔ Exists (λ e, not_iterable (Objects.property e "tags_user")
                 ∨ not_a_string (Objects.property e "transcript_user"))
      entries.
Proof.
  rewrite objects_processEntries_view.
  transitivity (Exists ill_typed (map (Objects.view to_number) entries)).
  { rewrite <- (dynamic_loop_throws _ (∅, [])).
    unfold Dynamic.processEntries. by destruct (Dynamic.loop _ _). }
  induction entries as [|e entries IH].
  - cbn. by rewrite !Exists_nil.
  - cbn [map]. by rewrite !Exists_cons, shapes_ill_typed, IH.
Qed.

(** * Properties of the loader *)

(** ** Splitting and trimming *)

Lemma split_not_nil (sep : ascii) (s : string) : Csv.split sep s ≠ [].
Proof.
  induction s as [|c s IH]; [done|]. cbn [Csv.split].
  destruct (Ascii.eqb c sep); [done|]. by destruct (Csv.split sep s).
Qed.

Lemma split_cons (sep c : ascii) (s : string) :
  Csv.split sep (String c s)
  = if Ascii.eqb c sep then "" :: Csv.split sep s
    else match Csv.split sep s with
         | piece :: pieces => String c piece :: pieces
         | [] => [String c ""]
         end.
Proof. done. Qed.

(** X16. Splitting loses nothing: joining the pieces with the separator
    gives the string back, and no piece contains the separator. *)
Theorem split_join (sep : ascii) (s : string) :
  Csv.join sep (Csv.split sep s) = s
  ∧ Forall (λ piece, Csv.has_char sep piece = false) (Csv.split sep s).
Proof.
  induction s as [|c s [IHj IHc]].
  { split; [done|]. by constructor. }
  rewrite split_cons.
  destruct (Ascii.eqb_spec c sep) as [->|Hne].
  - split; [|by constructor].
    pose proof (split_not_nil sep s) as Hnil.
    destruct (Csv.split sep s) as [|p ps] eqn:Hs; [done|].
    change (String sep (Csv.join sep (p :: ps)) = String sep s).
    by rewrite IHj.
  - pose proof (split_not_nil sep s) as Hnil.
    destruct (Csv.split sep s) as [|p ps] eqn:Hs; [done|].
    split.
    + rewrite <- IHj. by destruct ps.
    + apply Forall_cons in IHc as [Hp Hps]. constructor; [|done].
      cbn [Csv.has_char]. rewrite Hp.
      by destruct (Ascii.eqb_spec c sep).
Qed.

Lemma trimEnd_cons (c : ascii) (s : string) :
  Csv.trimEnd (String c s)
  = match Csv.trimEnd s with
    | EmptyString => if Csv.is_space c then "" else String c ""
    | t => String c t
    end.
Proof. done. Qed.

Lemma trimEnd_idempotent (s : string) :
  Csv.trimEnd (Csv.trimEnd s) = Csv.trimEnd s.
Proof.
  induction s as [|c s IH]; [done|].
  rewrite trimEnd_cons.
  destruct (Csv.trimEnd s) as [|d t] eqn:Ht.
  - destruct (Csv.is_space c) eqn:Hc; [done|].
    rewrite trimEnd_cons. cbn [Csv.trimEnd]. by rewrite Hc.
  - rewrite trimEnd_cons, IH. done.
Qed.

Lemma trimStart_head (s : string) :
  match Csv.trimStart s with
  | EmptyString => True
  | String c _ => Csv.is_space c = false
  end.
Proof.
  induction s as [|c s IH]; [done|]. cbn [Csv.trimStart].
  by destruct (Csv.is_space c) eqn:Hc.
Qed.

Lemma trimStart_trimEnd_head (c : ascii) (s : string) :
  Csv.is_space c = false →
  Csv.trimStart (Csv.trimEnd (String c s)) = Csv.trimEnd (String c s).
Proof.
  intros Hc. rewrite trimEnd_cons.
  destruct (Csv.trimEnd s); rewrite ?Hc; cbn [Csv.trimStart]; by rewrite Hc.
Qed.

Lemma trim_idempotent (s : string) : Csv.trim (Csv.trim s) = Csv.trim s.
Proof.
  unfold Csv.trim. pose proof (trimStart_head s) as H.
  destruct (Csv.trimStart s) as [|c t]; [done|].
  by rewrite trimStart_trimEnd_head, trimEnd_idempotent.
Qed.

Lemma cell_text_trimmed (values : list string) (index : nat) (v : string) :
  Csv.cell_text values index = Some v → v ≠ "" ∧ Csv.trim v = v.
Proof.
  unfold Csv.cell_text. destruct (values !! index) as [x|]; [|done].
  destruct (String.eqb_spec (Csv.trim x) "") as [|Hne]; [done|].
  intros [= <-]. split; [done|apply trim_idempotent].
Qed.

(** ** What a row becomes *)

Section LoaderProperties.

Context {Json : Type}.
Variable parse_float_text : string → string.
Variable json_parse : string → Json + string.
Variable json_truthy : Json → bool.
Variable random_id : nat → string.

Implicit Types (o : Csv.object Json) (values headers : list string).

(** One header either leaves the own properties alone, which only
    "__proto__" can do, or writes a fitting value under its name. *)
Lemma store_own o values index header :
  (header = "__proto__"
   ∧ Csv.own (Csv.store parse_float_text json_parse o values index header).1
     = Csv.own o)
  ∨ ∃ c,
      Csv.own (Csv.store parse_float_text json_parse o values index header).1
      = <[header := c]> (Csv.own o)
      ∧ cell_fits header c.
Proof.
  unfold Csv.store.
  destruct (decide (header = "tags_model" ∨ header = "tags_user")) as [Ht|Ht].
  { right. eexists. split; [done|]. exact Ht. }
  assert (Hm : header ≠ "tags_model") by tauto.
  assert (Hu : header ≠ "tags_user") by tauto.
  cbv zeta.
  destruct (decide (header = "embedding")) as [He|He].
  { right.
    destruct (if decide (header = "emotion_score_score") then _ else _)
      as [v|]; [destruct (json_parse v)|]; cbn; eexists; (split; [done|]);
      cbn; tauto. }
  assert (Hv : ∀ v,
    (if decide (header = "emotion_score_score")
     then parse_float_text <$> Csv.cell_text values index
     else Csv.cell_text values index) = Some v →
    cell_fits header (Csv.CText v : Csv.cell Json)).
  { intros v Hv. cbn. repeat split; try done.
    destruct (decide (header = "emotion_score_score")); [by left|].
    right. right. by apply cell_text_trimmed in Hv. }
  destruct (if decide (header = "emotion_score_score") then _ else _)
    as [v|] eqn:Hval; cbn; unfold Csv.assign.
  - destruct (decide (header = "__proto__")) as [Hp|Hp].
    + destruct (Csv.has_prototype o); [by left|].
      right. eexists. split; [done|]. by apply Hv.
    + right. eexists. split; [done|]. by apply Hv.
  - destruct (decide (header = "__proto__")) as [Hp|Hp].
    + destruct (Csv.has_prototype o); [by left|].
      right. eexists. split; [done|]. by cbn.
    + right. eexists. split; [done|]. by cbn.
Qed.

Lemma store_fits o values index header :
  fits o →
  fits (Csv.store parse_float_text json_parse o values index header).1.
Proof.
  intros Ho k c.
  destruct (store_own o values index header) as [[_ ->]|(c' & -> & Hc')].
  - apply Ho.
  - rewrite lookup_insert. case_decide as Hk.
    + subst k. by intros [= <-].
    + apply Ho.
Qed.

Lemma store_keys o values index header (k : string) :
  k ≠ "__proto__" →
  is_Some
    (Csv.own (Csv.store parse_float_text json_parse o values index header).1
     !! k)
  ↔ is_Some (Csv.own o !! k) ∨ k = header.
Proof.
  intros Hk.
  destruct (store_own o values index header) as [[Hh ->]|(c' & -> & _)].
  - split; [by left|]. intros [H|H]; [done|]. congruence.
  - rewrite lookup_insert. case_decide as Hkh.
    + subst k. split; [by right|]. by eexists.
    + split; [by left|]. intros [H|H]; [done|]. congruence.
Qed.

Lemma store_all_fits values headers index o :
  fits o →
  fits (Csv.store_all parse_float_text json_parse values index headers o).1.
Proof.
  revert index o. induction headers as [|h hs IH]; intros index o Ho; [done|].
  cbn [Csv.store_all].
  pose proof (store_fits o values index h Ho) as H1.
  destruct (Csv.store _ _ o values index h) as [o1 w1].
  specialize (IH (S index) o1 H1).
  by destruct (Csv.store_all _ _ values (S index) hs o1) as [o2 w2].
Qed.

Lemma store_all_keys values headers index o (k : string) :
  k ≠ "__proto__" →
  is_Some
    (Csv.own
       (Csv.store_all parse_float_text json_parse values index headers o).1
     !! k)
  ↔ is_Some (Csv.own o !! k) ∨ k ∈ headers.
Proof.
  intros Hk. revert index o.
  induction headers as [|h hs IH]; intros index o.
  - cbn. rewrite elem_of_nil. tauto.
  - cbn [Csv.store_all].
    pose proof (store_keys o values index h k Hk) as H1.
    destruct (Csv.store _ _ o values index h) as [o1 w1].
    specialize (IH (S index) o1).
    destruct (Csv.store_all _ _ values (S index) hs o1) as [o2 w2].
    cbn [fst] in *. rewrite IH, H1, elem_of_cons. tauto.
Qed.

Lemma empty_object_fits : fits (@Csv.empty_object Json).
Proof. intros k c. cbn. by rewrite lookup_empty. Qed.

(** A truthy value under a key that is no tag column and not
    "embedding" is a text that is not empty. *)
Lemma truthy_text o (k : string) :
  fits o →
  k ≠ "tags_model" → k ≠ "tags_user" → k ≠ "embedding" →
  Csv.lacks json_truthy o k = false →
  ∃ s, Csv.own o !! k = Some (Csv.CText s) ∧ s ≠ "".
Proof.
  intros Ho Hm Hu He. unfold Csv.lacks.
  destruct (Csv.own o !! k) as [c|] eqn:Hc; [|done].
  specialize (Ho k c Hc).
  destruct c as [|s|items|j]; cbn in *; try done; try tauto.
  intros Hs. exists s. split; [done|].
  intros ->. done.
Qed.

(** The entry made from a row: every property fits its key, the keys
    are the header names with "id" and "user_id", and both of these are
    texts, the second one not empty. *)
Lemma parse_row_entry headers (row : nat) (line : string) :
  let o := (Csv.parse_row parse_float_text json_parse json_truthy random_id
              headers row line).1 in
  fits o
  ∧ (∀ k, k ≠ "__proto__" →
          is_Some (Csv.own o !! k)
          ↔ k ∈ headers ∨ k = "id" ∨ k = "user_id")
  ∧ (∃ i, Csv.own o !! "id" = Some (Csv.CText i))
  ∧ (∃ u, Csv.own o !! "user_id" = Some (Csv.CText u) ∧ u ≠ "").
Proof.
  unfold Csv.parse_row.
  pose proof (store_all_fits (Csv.split "," line) headers 0
                Csv.empty_object empty_object_fits) as Hfit.
  pose proof (λ k Hk, store_all_keys (Csv.split "," line) headers 0
                        Csv.empty_object k Hk) as Hkeys.
  destruct (Csv.store_all _ _ (Csv.split "," line) 0 headers _) as [o0 w].
  cbn [fst] in *.
  assert (Hkeys0 : ∀ k, k ≠ "__proto__" →
            is_Some (Csv.own o0 !! k) ↔ k ∈ headers).
  { intros k Hk. rewrite (Hkeys k Hk). cbn. rewrite lookup_empty.
    split; [intros [[? [=]]|?]; done|by right]. }
  clear Hkeys.
  set (o1 := if Csv.lacks json_truthy o0 "id"
             then Csv.define o0 "id" (Csv.CText (random_id row)) else o0).
  assert (H1 : fits o1
    ∧ (∀ k, k ≠ "__proto__" →
            is_Some (Csv.own o1 !! k) ↔ k ∈ headers ∨ k = "id")
    ∧ ∃ i, Csv.own o1 !! "id" = Some (Csv.CText i)).
  { subst o1. destruct (Csv.lacks json_truthy o0 "id") eqn:Hl.
    - split; [|split].
      + intros k c. cbn. rewrite lookup_insert. case_decide as Hk.
        * subst k. intros [= <-]. cbn. repeat split; try done. tauto.
        * apply Hfit.
      + intros k Hk. cbn. rewrite lookup_insert. case_decide as Hki.
        * subst k. split; [by right|]. by eexists.
        * rewrite (Hkeys0 k Hk). split; [by left|]. intros [|]; congruence.
      + eexists. cbn. by rewrite lookup_insert_eq.
    - destruct (truthy_text o0 "id" Hfit) as (s & Hs & _); try done.
      split; [done|]. split; [|by eexists].
      intros k Hk. rewrite (Hkeys0 k Hk). split; [by left|].
      intros [ | -> ]; [done|]. apply Hkeys0; [done|]. rewrite Hs. by eexists. }
  destruct H1 as (Hfit1 & Hkeys1 & Hid).
  destruct (Csv.lacks json_truthy o1 "user_id") eqn:Hl; cbn [fst].
  - split; [|split; [|split]].
    + intros k c. cbn. rewrite lookup_insert. case_decide as Hk.
      * subst k. intros [= <-]. cbn. repeat split; try done.
        right. right. by split.
      * apply Hfit1.
    + intros k Hk. cbn. rewrite lookup_insert. case_decide as Hku.
      * subst k. split; [tauto|]. by eexists.
      * rewrite (Hkeys1 k Hk). split; [tauto|]. intros [|[|]]; try tauto.
        congruence.
    + destruct Hid as [i Hi]. exists i. cbn.
      by rewrite lookup_insert_ne.
    + eexists. cbn. by rewrite lookup_insert_eq.
  - destruct (truthy_text o1 "user_id" Hfit1) as (s & Hs & Hne); try done.
    split; [done|]. split; [|split; [done|by exists s]].
    intros k Hk. rewrite (Hkeys1 k Hk). split; [tauto|].
    intros [ | [ | -> ]]; try tauto.
    apply Hkeys1; [done|]. rewrite Hs. by eexists.
Qed.

End LoaderProperties.

(** ** What a file becomes *)

Lemma filter_nil_Forall {A} (f : A → bool) (l : list A) :
  List.filter f l = [] ↔ Forall (λ x, f x = false) l.
Proof.
  induction l as [|x l IH]; [by split; [constructor|]|].
  cbn [List.filter]. destruct (f x) eqn:Hx.
  - split; [done|]. intros [H _]%Forall_cons. congruence.
  - rewrite IH, Forall_cons. tauto.
Qed.

Section LoaderResults.

Context {Json : Type}.
Variable parse_float_text : string → string.
Variable json_parse : string → Json + string.
Variable json_truthy : Json → bool.
Variable random_id : nat → string.

Lemma parseCSV_Normal (content : string) (entries : list (Csv.object Json))
    (warnings : list string) :
  Csv.parseCSV parse_float_text json_parse json_truthy random_id content
  = Dynamic.Normal (entries, warnings) →
  entries
  = map fst
      (imap (Csv.parse_row parse_float_text json_parse json_truthy random_id
               (Csv.headers_of content))
         (take 20 (drop 1 (Csv.lines_of content)))).
Proof.
  unfold Csv.parseCSV, Csv.headers_of.
  destruct (Csv.lines_of content) as [|first rest]; [done|].
  by intros [= <- _].
Qed.

Lemma parseCSV_entry (content : string) (entries : list (Csv.object Json))
    (warnings : list string) (o : Csv.object Json) :
  Csv.parseCSV parse_float_text json_parse json_truthy random_id content
  = Dynamic.Normal (entries, warnings) →
  o ∈ entries →
  ∃ row line,
    o = (Csv.parse_row parse_float_text json_parse json_truthy random_id
           (Csv.headers_of content) row line).1.
Proof.
  intros ->%parseCSV_Normal Ho.
  apply list_elem_of_In, in_map_iff in Ho as ([o' w] & <- & Hin).
  apply list_elem_of_In, elem_of_lookup_imap in Hin as (row & line & Heq & _).
  exists row, line. by rewrite <- Heq.
Qed.

(** X17. The loader throws exactly on a file without a non-blank line:
    there is then no header line to split.  On every other file it
    returns. *)
Theorem parseCSV_throws_iff_blank (content : string) :
  Csv.parseCSV parse_float_text json_parse json_truthy random_id content
  = Dynamic.ThrowTypeError
  ↔ Forall (λ line, Csv.trim line = "") (Csv.split "010" content).
Proof.
  unfold Csv.parseCSV.
  assert (H : Csv.lines_of content = []
              ↔ Forall (λ line, Csv.trim line = "")
                  (Csv.split "010" content)).
  { unfold Csv.lines_of. rewrite filter_nil_Forall.
    apply Forall_proper; [|done]. intros line. unfold Csv.nonblank.
    destruct (String.eqb_spec (Csv.trim line) ""); cbn; split; done. }
  rewrite <- H. by destruct (Csv.lines_of content).
Qed.

(** X18. The loader gives one entry per non-blank line after the header
    line, in their order, and at most twenty of them. *)
Theorem parseCSV_row_count (content : string)
    (entries : list (Csv.object Json)) (warnings : list string) :
  Csv.parseCSV parse_float_text json_parse json_truthy random_id content
  = Dynamic.Normal (entries, warnings) →
  length entries = (length (Csv.lines_of content) - 1) `min` 20.
Proof.
  intros ->%parseCSV_Normal.
  rewrite length_map, length_imap, length_take, length_drop. lia.
Qed.


Lemma loaded_fits (content : string) (entries : list (Csv.object Json))
    (warnings : list string) (o : Csv.object Json) :
  Csv.parseCSV parse_float_text json_parse json_truthy random_id content
  = Dynamic.Normal (entries, warnings) →
  o ∈ entries → fits o.
Proof.
  intros Hload Ho.
  destruct (parseCSV_entry _ _ _ _ Hload Ho) as (row & line & ->).
  apply (parse_row_entry parse_float_text json_parse json_truthy random_id).
Qed.

Lemma loaded_keys (content : string) (entries : list (Csv.object Json))
    (warnings : list string) (o : Csv.object Json) (k : string) :
  Csv.parseCSV parse_float_text json_parse json_truthy random_id content
  = Dynamic.Normal (entries, warnings) →
  o ∈ entries →
  k ≠ "__proto__" →
  is_Some (Csv.own o !! k)
  ↔ k ∈ Csv.headers_of content ∨ k = "id" ∨ k = "user_id".
Proof.
  intros Hload Ho Hk.
  destruct (parseCSV_entry _ _ _ _ Hload Ho) as (row & line & ->).
  by apply (parse_row_entry parse_float_text json_parse json_truthy random_id).
Qed.

(** X21. Under a tag column a loaded entry always holds a list, never
    [null] or a text; without a header of that exact name it holds
    nothing there. *)
Theorem parseCSV_tag_columns (content : string)
    (entries : list (Csv.object Json)) (warnings : list string)
    (o : Csv.object Json) (k : string) :
  Csv.parseCSV parse_float_text json_parse json_truthy random_id content
  = Dynamic.Normal (entries, warnings) →
  o ∈ entries →
  k = "tags_model" ∨ k = "tags_user" →
  (k ∈ Csv.headers_of content →
   ∃ items, Csv.own o !! k = Some (Csv.CList items))
  ∧ (k ∉ Csv.headers_of content → Csv.own o !! k = None).
Proof.
  intros Hload Ho Hk.
  assert (Hp : k ≠ "__proto__") by (destruct Hk as [->| ->]; done).
  assert (Hi : k ≠ "id" ∧ k ≠ "user_id")
    by (destruct Hk as [->| ->]; done).
  pose proof (loaded_keys _ _ _ _ k Hload Ho Hp) as Hkeys.
  pose proof (loaded_fits _ _ _ _ Hload Ho k) as Hfit.
  split.
  - intros Hin. destruct (Csv.own o !! k) as [c|] eqn:Hc.
    + specialize (Hfit c eq_refl).
      destruct c as [|s|items|j]; cbn in Hfit.
      * tauto.
      * tauto.
      * by exists items.
      * subst k. by destruct Hk.
    + assert (Hs : is_Some (None : option (Csv.cell Json)))
        by (apply Hkeys; tauto).
      by destruct Hs.
  - intros Hnin. apply eq_None_not_Some. rewrite Hkeys. tauto.
Qed.

End LoaderResults.

(** ** The classifier on what the loader gives *)

Section LoadedIntoClassifier.

Context {Json : Type}.
Variable parse_float_text : string → string.
Variable json_parse : string → Json + string.
Variable json_truthy : Json → bool.
Variable random_id : nat → string.
Variable to_number : string → float.

(** An entry whose properties fit their keys has a counterpart in the
    classifier's untyped model, and the loop body throws on it exactly
    when it has no tag list or no transcript text. *)
Lemma as_raw_fits (o : Csv.object Json) :
  fits o →
  ∃ raw, as_raw to_number o = Some raw
         ∧ (ill_typed raw
            ↔ Csv.own o !! "tags_user" = None ∨ ¬ has_transcript o).
Proof.
  intros Ho. unfold as_raw, has_transcript.
  pose proof (Ho "transcript_user") as Ht.
  pose proof (Ho "tags_user") as Hg.
  pose proof (Ho "emotion_score_score") as Hs.
  destruct (Csv.own o !! "transcript_user") as [[|t|l|j]|];
    try (by exfalso; specialize (Ht _ eq_refl); cbn in Ht;
            intuition discriminate).
  all: destruct (Csv.own o !! "tags_user") as [[|g|l|j']|];
    try (by exfalso; specialize (Hg _ eq_refl); cbn in Hg;
            intuition discriminate).
  all: destruct (Csv.own o !! "emotion_score_score") as [[|s|l'|j'']|];
    try (by exfalso; specialize (Hs _ eq_refl); cbn in Hs;
            intuition discriminate).
  all: cbn; eexists; (split; [reflexivity|]); unfold ill_typed; cbn.
  all: clear Ht Hg Hs; split;
    [ intros [H|H]; first [discriminate H | by left
                          | right; intros [? H']; discriminate H']
    | intros [H|H]; first [discriminate H | by left | by right
                          | exfalso; apply H; by eexists] ].
Qed.

Lemma as_raw_all (entries : list (Csv.object Json)) :
  Forall fits entries →
  ∃ raws, mapM (as_raw to_number) entries = Some raws
          ∧ (Exists ill_typed raws
             ↔ Exists (λ o, Csv.own o !! "tags_user" = None
                            ∨ ¬ has_transcript o) entries).
Proof.
  induction 1 as [|o entries Ho _ (raws & Hraws & IH)].
  - exists []. split; [done|]. by rewrite !Exists_nil.
  - destruct (as_raw_fits o Ho) as (raw & Hraw & Hill).
    exists (raw :: raws). split.
    + cbn. rewrite Hraw. cbn. by rewrite Hraws.
    + by rewrite !Exists_cons, Hill, IH.
Qed.

(** X23. Every loaded entry can be handed to the classifier, and the
    classifier throws on what the loader gives exactly when there is an
    entry and no column named "tags_user", or when some entry has no
    text under "transcript_user" (the column is missing or the cell is
    blank).  In every other case it returns. *)
Theorem classifier_on_loaded (content : string)
    (entries : list (Csv.object Json)) (warnings : list string) :
  Csv.parseCSV parse_float_text json_parse json_truthy random_id content
  = Dynamic.Normal (entries, warnings) →
  ∃ raws,
    mapM (as_raw to_number) entries = Some raws
    ∧ (Dynamic.processEntries raws = Dynamic.ThrowTypeError
       ↔ (entries ≠ [] ∧ "tags_user" ∉ Csv.headers_of content)
         ∨ Exists (λ o, ¬ has_transcript o) entries).
Proof.
  intros Hload.
  assert (Hfits : Forall fits entries).
  { apply Forall_forall. intros o Ho. by eapply loaded_fits. }
  assert (Htags : ∀ o, o ∈ entries →
            Csv.own o !! "tags_user" = None
            ↔ "tags_user" ∉ Csv.headers_of content).
  { intros o Ho. rewrite eq_None_not_Some.
    rewrite (loaded_keys _ _ _ _ _ _ _ o "tags_user" Hload Ho) by done.
    split; [tauto|]. intros H [|[|]]; done. }
  destruct (as_raw_all entries Hfits) as (raws & Hraws & Hex).
  exists raws. split; [done|].
  transitivity (Exists ill_typed raws).
  { rewrite <- (dynamic_loop_throws raws (∅, [])).
    unfold Dynamic.processEntries. by destruct (Dynamic.loop raws _). }
  rewrite Hex, !Exists_exists. split.
  - intros (o & Ho & [Hn|Hn]).
    + left. split; [by intros ->; apply elem_of_nil in Ho|].
      by apply (Htags o Ho).
    + right. by exists o.
  - intros [[Hne Hh]|(o & Ho & Hn)].
    + destruct entries as [|o rest]; [done|].
      exists o. split; [by left|]. left. apply Htags; [by left|done].
    + exists o. split; [done|]. by right.
Qed.

End LoadedIntoClassifier.

(** ** The loader on a sample file *)

Lemma sample_loaded :
  sample_parseCSV sample_content
  = Dynamic.Normal (sample_entries, sample_warnings).
Proof. by vm_compute. Qed.

Lemma sample_entry_loaded : sample_entry ∈ sample_entries.
Proof. apply list_elem_of_In. vm_compute. by left. Qed.

Lemma parseCSV_row_count_witness :
  sample_parseCSV sample_content
  = Dynamic.Normal (sample_entries, sample_warnings)
  ∧ length sample_entries = 2%nat.
Proof.
  split; [exact sample_loaded|].
  rewrite (parseCSV_row_count sample_float sample_json sample_truthy
             sample_random sample_content sample_entries sample_warnings
             sample_loaded).
  reflexivity.
Defined.


Lemma parseCSV_tag_columns_witness :
  sample_parseCSV sample_content
  = Dynamic.Normal (sample_entries, sample_warnings)
  ∧ sample_entry ∈ sample_entries
  ∧ ("tags_user" ∈ Csv.headers_of sample_content →
     ∃ items, Csv.own sample_entry !! "tags_user" = Some (Csv.CList items))
  ∧ ("tags_user" ∉ Csv.headers_of sample_content →
     Csv.own sample_entry !! "tags_user" = None).
Proof.
  split; [exact sample_loaded|]. split; [exact sample_entry_loaded|].
  exact (parseCSV_tag_columns sample_float sample_json sample_truthy
           sample_random sample_content sample_entries sample_warnings
           sample_entry "tags_user" sample_loaded sample_entry_loaded
           (or_intror eq_refl)).
Defined.

Lemma classifier_on_loaded_witness :
  sample_parseCSV sample_content
  = Dynamic.Normal (sample_entries, sample_warnings)
  ∧ ∃ raws,
      mapM (as_raw sample_number) sample_entries = Some raws
      ∧ (Dynamic.processEntries raws = Dynamic.ThrowTypeError
         ↔ (sample_entries ≠ []
            ∧ "tags_user" ∉ Csv.headers_of sample_content)
           ∨ Exists (λ o, ¬ has_transcript o) sample_entries).
Proof.
  split; [exact sample_loaded|].
  exact (classifier_on_loaded sample_float sample_json sample_truthy
           sample_random sample_number sample_content sample_entries
           sample_warnings sample_loaded).
Defined.

(** ** Blank lines and warnings *)

Lemma split_app_sep (sep : ascii) (a b : string) :
  Csv.split sep (a +:+ String sep b) = Csv.split sep a ++ Csv.split sep b.
Proof.
  induction a as [|c a IH].
  - change ("" +:+ String sep b) with (String sep b).
    rewrite split_cons. by rewrite Ascii.eqb_refl.
  - change (String c a +:+ String sep b) with (String c (a +:+ String sep b)).
    rewrite !split_cons, IH.
    destruct (Ascii.eqb c sep); [done|].
    pose proof (split_not_nil sep a) as Hnil.
    by destruct (Csv.split sep a).
Qed.

Lemma split_without_sep (sep : ascii) (s : string) :
  Csv.has_char sep s = false → Csv.split sep s = [s].
Proof.
  induction s as [|c s IH]; [done|].
  cbn [Csv.has_char]. intros [Hc Hs]%orb_false_elim.
  rewrite split_cons, Hc, IH; done.
Qed.

Section LoaderLines.

Context {Json : Type}.
Variable parse_float_text : string → string.
Variable json_parse : string → Json + string.
Variable json_truthy : Json → bool.
Variable random_id : nat → string.

Lemma parseCSV_lines (c1 c2 : string) :
  Csv.lines_of c1 = Csv.lines_of c2 →
  Csv.parseCSV parse_float_text json_parse json_truthy random_id c1
  = Csv.parseCSV parse_float_text json_parse json_truthy random_id c2.
Proof. unfold Csv.parseCSV. by intros ->. Qed.

(** X24. A blank line changes nothing: the file with a line of white
    space put between two of its lines loads to the same entries and
    warnings, or throws as before. *)
Theorem parseCSV_skips_blank_line (before blank after : string) :
  Csv.trim blank = "" →
  Csv.has_char "010" blank = false →
  Csv.parseCSV parse_float_text json_parse json_truthy random_id
    (before +:+ String "010" (blank +:+ String "010" after))
  = Csv.parseCSV parse_float_text json_parse json_truthy random_id
      (before +:+ String "010" after).
Proof.
  intros Hblank Hnl. apply parseCSV_lines. unfold Csv.lines_of.
  rewrite !split_app_sep, (split_without_sep _ blank Hnl).
  rewrite !List.filter_app. cbn [List.filter]. unfold Csv.nonblank at 2.
  by rewrite Hblank.
Qed.

End LoaderLines.

Lemma parseCSV_skips_blank_line_witness :
  Csv.trim "   " = ""
  ∧ Csv.has_char "010" "   " = false
  ∧ sample_parseCSV ("id,tags_user" +:+ String "010" ("   "
                      +:+ String "010" "1,a;b"))
    = sample_parseCSV ("id,tags_user" +:+ String "010" "1,a;b").
Proof.
  split; [reflexivity|]. split; [reflexivity|].
  exact (parseCSV_skips_blank_line sample_float sample_json sample_truthy
           sample_random "id,tags_user" "   " "1,a;b" eq_refl eq_refl).
Defined.


(** ** What the columns hold, and what is printed *)


Lemma elem_of_rows {A} (f : nat → string → A * list string)
    (rows : list string) (w : string) :
  w ∈ concat (map snd (imap f rows))
  ↔ ∃ row line, rows !! row = Some line ∧ w ∈ (f row line).2.
Proof.
  revert f. induction rows as [|line rows IH]; intros f.
  - cbn. rewrite elem_of_nil. split; [done|]. by intros (? & ? & [=] & _).
  - rewrite imap_cons. cbn [map concat]. rewrite elem_of_app, IH. split.
    + intros [H|(row & l & Hl & H)].
      * by exists 0%nat, line.
      * by exists (S row), l.
    + intros ([|row] & l & Hl & H).
      * left. by injection Hl as <-.
      * right. by exists row, l.
Qed.

Section LoaderCells.

Context {Json : Type}.
Variable parse_float_text : string → string.
Variable json_parse : string → Json + string.
Variable json_truthy : Json → bool.
Variable random_id : nat → string.

Implicit Types (o : Csv.object Json) (values headers : list string).









Lemma store_warning o values index header (w : string) :
  w ∈ (Csv.store parse_float_text json_parse o values index header).2
  ↔ header = "embedding"
    ∧ ∃ v message,
        Csv.cell_text values index = Some v
        ∧ json_parse v = inr message
        ∧ w = Csv.warning message.
Proof.
  unfold Csv.store.
  destruct (decide (header = "tags_model" ∨ header = "tags_user")) as [Ht|Ht].
  { cbn. rewrite elem_of_nil. split; [done|].
    intros [-> _]. by destruct Ht. }
  cbv zeta. destruct (decide (header = "embedding")) as [->|He].
  2: { cbn. rewrite elem_of_nil. split; [done|]. by intros [? _]. }
  rewrite decide_False by done.
  destruct (Csv.cell_text values index) as [v|].
  2: { cbn. rewrite elem_of_nil. split; [done|].
       by intros (_ & ? & ? & [=] & _). }
  destruct (json_parse v) as [j|message] eqn:Hj; cbn.
  - rewrite elem_of_nil. split; [done|].
    intros (_ & v' & m & [= <-] & Hj' & _). congruence.
  - rewrite list_elem_of_singleton. split.
    + intros ->. split; [done|]. by exists v, message.
    + intros (_ & v' & m & [= <-] & Hj' & ->). congruence.
Qed.

Lemma store_all_warning values headers index o (w : string) :
  w ∈ (Csv.store_all parse_float_text json_parse values index headers o).2
  ↔ ∃ j v message,
      headers !! j = Some "embedding"
      ∧ Csv.cell_text values (index + j) = Some v
      ∧ json_parse v = inr message
      ∧ w = Csv.warning message.
Proof.
  revert index o. induction headers as [|h hs IH]; intros index o.
  - cbn. rewrite elem_of_nil. split; [done|]. by intros (? & ? & ? & [=] & _).
  - cbn [Csv.store_all].
    pose proof (store_warning o values index h w) as H1.
    destruct (Csv.store _ _ o values index h) as [o1 w1].
    specialize (IH (S index) o1).
    destruct (Csv.store_all _ _ values (S index) hs o1) as [o2 w2].
    cbn [snd] in *. rewrite elem_of_app, H1, IH. split.
    + intros [(-> & v & m & Hv & Hj & ->)|(j & v & m & Hh & Hv & Hj & ->)].
      * exists 0%nat, v, m. by rewrite Nat.add_0_r.
      * exists (S j), v, m.
        by replace (index + S j)%nat with (S index + j)%nat by lia.
    + intros ([|j] & v & m & Hh & Hv & Hj & ->).
      * left. injection Hh as ->. rewrite Nat.add_0_r in Hv.
        split; [done|]. by exists v, m.
      * right. exists j, v, m.
        by replace (S index + j)%nat with (index + S j)%nat by lia.
Qed.

(** X25. The warnings are those of the embedding cells that do not
    parse: a line is printed exactly when some row among the first
    twenty has, under a column named "embedding", a cell that is not
    blank and on whose trimmed text the JSON parser fails, and the line
    is the fixed sentence followed by the message of that failure. *)
Theorem parseCSV_warnings_from_parser (content : string)
    (entries : list (Csv.object Json)) (warnings : list string)
    (w : string) :
  Csv.parseCSV parse_float_text json_parse json_truthy random_id content
  = Dynamic.Normal (entries, warnings) →
  w ∈ warnings
  ↔ ∃ row line index v message,
      take 20 (drop 1 (Csv.lines_of content)) !! row = Some line
      ∧ Csv.headers_of content !! index = Some "embedding"
      ∧ Csv.cell_text (Csv.split "," line) index = Some v
      ∧ json_parse v = inr message
      ∧ w = Csv.warning message.
Proof.
  unfold Csv.parseCSV, Csv.headers_of.
  destruct (Csv.lines_of content) as [|first rest]; [done|].
  intros [= _ <-]. rewrite elem_of_rows.
  assert (Hrow : ∀ row line,
    w ∈ (Csv.parse_row parse_float_text json_parse json_truthy random_id
           (Csv.split "," first) row line).2
    ↔ ∃ index v message,
        Csv.split "," first !! index = Some "embedding"
        ∧ Csv.cell_text (Csv.split "," line) index = Some v
        ∧ json_parse v = inr message
        ∧ w = Csv.warning message).
  { intros row line. unfold Csv.parse_row.
    pose proof (store_all_warning (Csv.split "," line)
                  (Csv.split "," first) 0 Csv.empty_object w) as H.
    destruct (Csv.store_all _ _ (Csv.split "," line) 0 _ _) as [o0 w0].
    exact H. }
  split.
  - intros (row & line & Hline & Hw). apply Hrow in Hw
      as (index & v & m & Hh & Hv & Hj & ->).
    by exists row, line, index, v, m.
  - intros (row & line & index & v & m & Hline & Hh & Hv & Hj & ->).
    exists row, line. split; [done|]. apply Hrow. by exists index, v, m.
Qed.

End LoaderCells.





Lemma sample_bad_loaded :
  sample_parseCSV sample_bad_content
  = Dynamic.Normal (sample_bad_entries, sample_bad_warnings).
Proof. by vm_compute. Qed.

Lemma parseCSV_warnings_from_parser_witness :
  sample_parseCSV sample_bad_content
  = Dynamic.Normal (sample_bad_entries, sample_bad_warnings)
  ∧ sample_bad_warnings = [Csv.warning "Unexpected token"]
  ∧ ∃ row line index v message,
      take 20 (drop 1 (Csv.lines_of sample_bad_content)) !! row = Some line
      ∧ Csv.headers_of sample_bad_content !! index = Some "embedding"
      ∧ Csv.cell_text (Csv.split "," line) index = Some v
      ∧ sample_json v = inr message
      ∧ Csv.warning "Unexpected token" = Csv.warning message.
Proof.
  split; [exact sample_bad_loaded|]. split; [by vm_compute|].
  apply (parseCSV_warnings_from_parser sample_float sample_json
           sample_truthy sample_random sample_bad_content sample_bad_entries
           sample_bad_warnings (Csv.warning "Unexpected token")
           sample_bad_loaded).
  apply list_elem_of_In. vm_compute. by left.
Defined.
